(** * The deletion cascade of the VideoShare API and the task list

    A shallow embedding of two parts of the backend:

    - the handlers [app.delete('/api/account')] and
      [app.delete('/api/videos/:id')], which remove rows of the SQLite
      tables [users] and [videos] and uploaded files below [__dirname];
    - the task list of [controllers/taskController.js] ([readTasks],
      [writeTasks], [getTasks], [updateTask]), kept in one JSON file.

    The handlers are written in continuation style in the source; every
    callback runs once, after the statement it belongs to, so a handler
    is modelled as a sequential program over a world made of the database
    connection, the set of existing paths and the log of the calls made
    so far. One request runs at a time. *)

From stdpp Require Import base option list gmap sets strings.

Set Warnings "-clear-no-such-hyp".

Local Open Scope Z_scope.
Local Open Scope string_scope.
Local Open Scope list_scope.

(** ** The relational store *)

Module Sqlite.

(** A row of [users]. *)
Record user_row := UserRow {
  user_pk : Z;
  name : string;
  email : string;
  password : string;
  user_created_at : string
}.

(** A row of [videos]; [video_pk] is the column [id]. *)
Record video_row := VideoRow {
  video_pk : Z;
  title : string;
  description : string;
  video_url : string;
  video_type : string;
  user_id : Z;
  created_at : string
}.

#[global] Instance user_row_eq_dec : EqDecision user_row.
Proof. solve_decision. Defined.
#[global] Instance video_row_eq_dec : EqDecision video_row.
Proof. solve_decision. Defined.

(** The connection: the two tables, and the tables as they were at
    [BEGIN] while a transaction is open. *)
Record database := Database {
  users : list user_row;
  videos : list video_row;
  txn : option (list user_row * list video_row)
}.

Definition idle (d : database) : Prop := txn d = None.

(** The statements the two handlers send. *)
Inductive statement :=
| BEGIN_TRANSACTION
| COMMIT
| ROLLBACK
| SELECT_videos_WHERE_user_id (u : Z)
| SELECT_videos_WHERE_id (v : Z)
| DELETE_videos_WHERE_user_id (u : Z)
| DELETE_videos_WHERE_id (v : Z)
| DELETE_users_WHERE_id (u : Z).

#[global] Instance statement_eq_dec : EqDecision statement.
Proof. solve_decision. Defined.

(** [BEGIN TRANSACTION] inside a transaction is an error and changes
    nothing. *)
Definition begin_transaction (d : database) : option database :=
  match txn d with
  | None => Some (Database (users d) (videos d) (Some (users d, videos d)))
  | Some _ => None
  end.

(** [ROLLBACK] outside a transaction is an error and changes nothing. *)
Definition rollback (d : database) : option database :=
  match txn d with
  | Some (us, vs) => Some (Database us vs None)
  | None => None
  end.

Definition commit (d : database) : option database :=
  match txn d with
  | Some _ => Some (Database (users d) (videos d) None)
  | None => None
  end.

Definition select_videos_by_user (d : database) (u : Z) : list video_row :=
  filter (λ v, user_id v = u) (videos d).

(** [db.get] yields the first row of the result, or [undefined]. *)
Definition select_video_by_id (d : database) (i : Z) : option video_row :=
  head (filter (λ v, video_pk v = i) (videos d)).

Definition delete_videos_by_user (d : database) (u : Z) : nat * database :=
  (length (filter (λ v, user_id v = u) (videos d)),
   Database (users d) (filter (λ v, user_id v ≠ u) (videos d)) (txn d)).

Definition delete_video_by_id (d : database) (i : Z) : nat * database :=
  (length (filter (λ v, video_pk v = i) (videos d)),
   Database (users d) (filter (λ v, video_pk v ≠ i) (videos d)) (txn d)).

(** [PRAGMA foreign_keys = ON] is set on the connection and [videos.user_id]
    is declared [ON DELETE CASCADE]: the videos of a deleted user go with
    it. [this.changes] counts the rows of [users] only. *)
Definition delete_user_by_id (d : database) (u : Z) : nat * database :=
  let n := length (filter (λ r, user_pk r = u) (users d)) in
  (n,
   Database (filter (λ r, user_pk r ≠ u) (users d))
            (match n with
             | O => videos d
             | S _ => filter (λ v, user_id v ≠ u) (videos d)
             end)
            (txn d)).

End Sqlite.
Export Sqlite.

(** ** The world of a request *)

(** What a handler does to its surroundings, in the order it does it.
    A statement is logged with [this.changes] (the number of rows for a
    [SELECT]), or with [None] when its callback receives [err]. *)
Inductive call :=
| Sql (q : statement) (r : option nat)
| ExistsSync (p : string) (r : bool)
| UnlinkSync (p : string) (ok : bool).

#[global] Instance call_eq_dec : EqDecision call.
Proof. solve_decision. Defined.

Record world := World {
  db : database;
  files : gset string;
  calls : list call
}.

Definition IO (A : Type) : Type := world → A * world.

#[global] Instance IO_ret : MRet IO := λ A a w, (a, w).
#[global] Instance IO_bind : MBind IO :=
  λ A B f m w, let '(a, w') := m w in f a w'.

Definition exec (q : statement) (d : database) : option (nat * database) :=
  match q with
  | BEGIN_TRANSACTION => d' ← begin_transaction d; Some (0%nat, d')
  | COMMIT => d' ← commit d; Some (0%nat, d')
  | ROLLBACK => d' ← rollback d; Some (0%nat, d')
  | SELECT_videos_WHERE_user_id u => Some (length (select_videos_by_user d u), d)
  | SELECT_videos_WHERE_id i => Some (length (option_list (select_video_by_id d i)), d)
  | DELETE_videos_WHERE_user_id u => Some (delete_videos_by_user d u)
  | DELETE_videos_WHERE_id i => Some (delete_video_by_id d i)
  | DELETE_users_WHERE_id u => Some (delete_user_by_id d u)
  end.

(** [db.run(q, function (err) { ... this.changes ... })]. A statement that
    fails leaves the tables as they are. [fault] stands for a failure of
    the engine itself (disk, lock). *)
Definition db_run (fault : bool) (q : statement) : IO (option nat) :=
  λ w,
    match (if fault then None else exec q (db w)) with
    | Some (n, d') => (Some n, World d' (files w) (calls w ++ [Sql q (Some n)]))
    | None => (None, World (db w) (files w) (calls w ++ [Sql q None]))
    end.

(** [db.all('SELECT * FROM videos WHERE user_id = ?', [u], (err, videos) => ...)] *)
Definition db_all (fault : bool) (u : Z) : IO (option (list video_row)) :=
  λ w,
    let '(r, w') := db_run fault (SELECT_videos_WHERE_user_id u) w in
    (match r with
     | Some _ => Some (select_videos_by_user (db w) u)
     | None => None
     end, w').

(** [db.get('SELECT * FROM videos WHERE id = ?', [i], (err, video) => ...)];
    the inner [None] is [undefined]. *)
Definition db_get (fault : bool) (i : Z) : IO (option (option video_row)) :=
  λ w,
    let '(r, w') := db_run fault (SELECT_videos_WHERE_id i) w in
    (match r with
     | Some _ => Some (select_video_by_id (db w) i)
     | None => None
     end, w').

(** ** Responses *)

Inductive payload :=
| Error (error : string)
| Message (message : string)
| AccountDeleted (message : string) (videosDeleted filesDeleted : nat).

Record response := Response { status : nat; content : payload }.

(** [res.json(x)] answers 200. *)
Definition res_json (x : payload) : response := Response 200 x.
Definition res_status_json (code : nat) (x : payload) : response := Response code x.

(** ** The handlers *)

Section Handlers.

(** [path.join(__dirname, url)]: where the server looks for the file of a
    locator. *)
Variable path_join_dirname : string → string.

(** The paths on which [fs.unlinkSync] throws although [fs.existsSync]
    answers [true] (a directory, a file that may not be removed). *)
Variable unlink_throws : string → bool.

Definition fs_existsSync (p : string) : IO bool :=
  λ w,
    let r := bool_decide (p ∈ files w) in
    (r, World (db w) (files w) (calls w ++ [ExistsSync p r])).

(** [try { fs.unlinkSync(p); ...; true } catch (fileError) { ...; false }] *)
Definition fs_unlinkSync (p : string) : IO bool :=
  λ w,
    if bool_decide (p ∈ files w) && negb (unlink_throws p)
    then (true, World (db w) (files w ∖ {[p]}) (calls w ++ [UnlinkSync p true]))
    else (false, World (db w) (files w) (calls w ++ [UnlinkSync p false])).

(** [video.video_type === 'file' && video.video_url] *)
Definition is_local_upload (video : video_row) : bool :=
  bool_decide (video_type video = "file") && negb (bool_decide (video_url video = "")).

(** The body of [videos.forEach] in the account handler, and the same
    block of the video handler; the result says whether the file was
    unlinked. *)
Definition remove_video_file (video : video_row) : IO bool :=
  if is_local_upload video then
    let filePath := path_join_dirname (video_url video) in
    present ← fs_existsSync filePath;
    if (present : bool) then fs_unlinkSync filePath else mret false
  else mret false.

(** [let filesDeleted = 0; videos.forEach(video => { ... filesDeleted++ ... })] *)
Fixpoint remove_video_files (videos : list video_row) (filesDeleted : nat) : IO nat :=
  match videos with
  | [] => mret filesDeleted
  | video :: rest =>
      unlinked ← remove_video_file video;
      remove_video_files rest (if (unlinked : bool) then S filesDeleted else filesDeleted)
  end.

Record account_faults := AccountFaults {
  select_err : bool;
  delete_videos_err : bool;
  delete_user_err : bool;
  commit_err : bool
}.

Definition no_account_faults : account_faults := AccountFaults false false false false.

(** [app.delete('/api/account', authenticateToken, (req, res) => ...)],
    with [userId = req.user.id]. The [BEGIN] and the [ROLLBACK]s are sent
    without a callback. *)
Definition delete_account (f : account_faults) (userId : Z) : IO response :=
  db_run false BEGIN_TRANSACTION;;
  selected ← db_all (select_err f) userId;
  match selected with
  | None =>
      db_run false ROLLBACK;;
      mret (res_status_json 500 (Error "Failed to delete account"))
  | Some videos =>
      filesDeleted ← remove_video_files videos 0%nat;
      deleted ← db_run (delete_videos_err f) (DELETE_videos_WHERE_user_id userId);
      match deleted with
      | None =>
          db_run false ROLLBACK;;
          mret (res_status_json 500 (Error "Failed to delete account data"))
      | Some _ =>
          removed ← db_run (delete_user_err f) (DELETE_users_WHERE_id userId);
          match removed with
          | None =>
              db_run false ROLLBACK;;
              mret (res_status_json 500 (Error "Failed to delete account"))
          | Some O =>
              db_run false ROLLBACK;;
              mret (res_status_json 404 (Error "User not found"))
          | Some (S _) =>
              committed ← db_run (commit_err f) COMMIT;
              match committed with
              | None =>
                  db_run false ROLLBACK;;
                  mret (res_status_json 500 (Error "Failed to complete account deletion"))
              | Some _ =>
                  mret (res_json (AccountDeleted
                          "Account and all associated data deleted successfully"
                          (length videos) filesDeleted))
              end
          end
      end
  end.

Record video_faults := VideoFaults { get_err : bool; delete_err : bool }.

Definition no_video_faults : video_faults := VideoFaults false false.

(** [app.delete('/api/videos/:id', authenticateToken, (req, res) => ...)],
    with [videoId] the number [req.params.id] denotes and
    [userId = req.user.id]. The handler compares [video.user_id] with
    [userId] as JavaScript numbers; the test below is that comparison for
    ids that are safe integers, and what is proved about somebody else's
    video is proved for those. *)
Definition delete_video (f : video_faults) (userId videoId : Z) : IO response :=
  fetched ← db_get (get_err f) videoId;
  match fetched with
  | None => mret (res_status_json 500 (Error "Failed to delete video"))
  | Some None => mret (res_status_json 404 (Error "Video not found"))
  | Some (Some video) =>
      if negb (bool_decide (user_id video = userId)) then
        mret (res_status_json 403 (Error "Access denied"))
      else
        remove_video_file video;;
        deleted ← db_run (delete_err f) (DELETE_videos_WHERE_id videoId);
        match deleted with
        | None => mret (res_status_json 500 (Error "Failed to delete video from database"))
        | Some O => mret (res_status_json 404 (Error "Video not found"))
        | Some (S _) => mret (res_json (Message "Video deleted successfully"))
        end
  end.

End Handlers.

(** A request starts with an empty log. *)
Definition request (d : database) (fs : gset string) : world := World d fs [].

(** ** What the calls of a log say *)

Definition is_sql (c : call) : bool :=
  match c with Sql _ _ => true | _ => false end.

Definition is_unlinked (c : call) : bool :=
  match c with UnlinkSync _ true => true | _ => false end.

(** The path a filesystem call is about. *)
Definition call_path (c : call) : option string :=
  match c with
  | Sql _ _ => None
  | ExistsSync p _ | UnlinkSync p _ => Some p
  end.

(** The number of [fs.unlinkSync] calls of a log that returned. *)
Definition unlinked_count (l : list call) : nat := length (filter is_unlinked l).

(** The statements that remove rows or end the transaction. *)
Definition is_row_delete_or_commit (c : call) : bool :=
  match c with
  | Sql (DELETE_videos_WHERE_user_id _) _
  | Sql (DELETE_videos_WHERE_id _) _
  | Sql (DELETE_users_WHERE_id _) _
  | Sql COMMIT _ => true
  | _ => false
  end.

(** ** One pass over the videos of an account *)

(** What the [forEach] of the account handler did, seen from outside:
    [l] are the calls it made from world [w] to world [w'], counting from
    [n] to [m]. *)
Record pass (pj : string → string) (throws : string → bool)
    (vs : list video_row) (n : nat) (w : world) (m : nat) (w' : world)
    (l : list call) : Prop := Pass {
  pass_db : db w' = db w;
  pass_calls : calls w' = calls w ++ l;
  pass_count : m = (n + unlinked_count l)%nat;
  pass_origin :
    Forall (λ c, ∃ v, v ∈ vs ∧ video_type v = "file" ∧ video_url v ≠ "" ∧
                      call_path c = Some (pj (video_url v))) l;
  pass_files : ∀ p, p ∈ files w' ↔ p ∈ files w ∧ UnlinkSync p true ∉ l;
  pass_size : size (files w) = (size (files w') + unlinked_count l)%nat;
  pass_bound : (unlinked_count l ≤ length vs)%nat;
  pass_attempts :
    ∀ v, v ∈ vs → video_type v = "file" → video_url v ≠ "" →
         pj (video_url v) ∈ files w →
         ∃ ok, UnlinkSync (pj (video_url v)) ok ∈ l;
  pass_thrown :
    ∀ p, UnlinkSync p false ∈ l → throws p = true;
  pass_existing :
    ∀ p ok, UnlinkSync p ok ∈ l → p ∈ files w;
  pass_returned :
    ∀ p, UnlinkSync p true ∈ l → throws p = false
}.

(** ** The paths through the account handler *)

(** The tables once the account [u] and its videos are gone. *)
Definition without_account (d : database) (u : Z) : database :=
  Database (filter (λ r, user_pk r ≠ u) (users d))
           (filter (λ v, user_id v ≠ u) (videos d)) None.

(** The connection after [BEGIN] on an idle connection. *)
Definition begun (d : database) : database :=
  Database (users d) (videos d) (Some (users d, videos d)).

(** Every run of the handler on an idle connection [d] and files [fs] is
    one of six: [account_path ... r w'] lists, for each, the reply [r] and
    the world [w'] it ends in. *)
Inductive account_path (pj : string → string) (throws : string → bool)
    (f : account_faults) (u : Z) (d : database) (fs : gset string)
  : response → world → Prop :=
| select_failed :
    select_err f = true →
    account_path pj throws f u d fs
      (Response 500 (Error "Failed to delete account"))
      (World d fs [Sql BEGIN_TRANSACTION (Some 0%nat);
                   Sql (SELECT_videos_WHERE_user_id u) None;
                   Sql ROLLBACK (Some 0%nat)])
| delete_videos_failed pre l m fs' :
    select_err f = false →
    pre = [Sql BEGIN_TRANSACTION (Some 0%nat);
           Sql (SELECT_videos_WHERE_user_id u)
               (Some (length (select_videos_by_user d u)))] →
    pass pj throws (select_videos_by_user d u) 0
         (World (begun d) fs pre) m (World (begun d) fs' (pre ++ l)) l →
    delete_videos_err f = true →
    account_path pj throws f u d fs
      (Response 500 (Error "Failed to delete account data"))
      (World d fs' (pre ++ l ++ [Sql (DELETE_videos_WHERE_user_id u) None;
                                 Sql ROLLBACK (Some 0%nat)]))
| delete_user_failed pre l m fs' :
    select_err f = false →
    pre = [Sql BEGIN_TRANSACTION (Some 0%nat);
           Sql (SELECT_videos_WHERE_user_id u)
               (Some (length (select_videos_by_user d u)))] →
    pass pj throws (select_videos_by_user d u) 0
         (World (begun d) fs pre) m (World (begun d) fs' (pre ++ l)) l →
    delete_videos_err f = false →
    delete_user_err f = true →
    account_path pj throws f u d fs
      (Response 500 (Error "Failed to delete account"))
      (World d fs' (pre ++ l ++
         [Sql (DELETE_videos_WHERE_user_id u)
              (Some (length (select_videos_by_user d u)));
          Sql (DELETE_users_WHERE_id u) None;
          Sql ROLLBACK (Some 0%nat)]))
| user_not_found pre l m fs' :
    select_err f = false →
    pre = [Sql BEGIN_TRANSACTION (Some 0%nat);
           Sql (SELECT_videos_WHERE_user_id u)
               (Some (length (select_videos_by_user d u)))] →
    pass pj throws (select_videos_by_user d u) 0
         (World (begun d) fs pre) m (World (begun d) fs' (pre ++ l)) l →
    delete_videos_err f = false →
    delete_user_err f = false →
    filter (λ r, user_pk r = u) (users d) = [] →
    account_path pj throws f u d fs
      (Response 404 (Error "User not found"))
      (World d fs' (pre ++ l ++
         [Sql (DELETE_videos_WHERE_user_id u)
              (Some (length (select_videos_by_user d u)));
          Sql (DELETE_users_WHERE_id u) (Some 0%nat);
          Sql ROLLBACK (Some 0%nat)]))
| commit_failed pre l m fs' k :
    select_err f = false →
    pre = [Sql BEGIN_TRANSACTION (Some 0%nat);
           Sql (SELECT_videos_WHERE_user_id u)
               (Some (length (select_videos_by_user d u)))] →
    pass pj throws (select_videos_by_user d u) 0
         (World (begun d) fs pre) m (World (begun d) fs' (pre ++ l)) l →
    delete_videos_err f = false →
    delete_user_err f = false →
    length (filter (λ r, user_pk r = u) (users d)) = S k →
    commit_err f = true →
    account_path pj throws f u d fs
      (Response 500 (Error "Failed to complete account deletion"))
      (World d fs' (pre ++ l ++
         [Sql (DELETE_videos_WHERE_user_id u)
              (Some (length (select_videos_by_user d u)));
          Sql (DELETE_users_WHERE_id u) (Some (S k));
          Sql COMMIT None;
          Sql ROLLBACK (Some 0%nat)]))
| committed pre l m fs' k :
    select_err f = false →
    pre = [Sql BEGIN_TRANSACTION (Some 0%nat);
           Sql (SELECT_videos_WHERE_user_id u)
               (Some (length (select_videos_by_user d u)))] →
    pass pj throws (select_videos_by_user d u) 0
         (World (begun d) fs pre) m (World (begun d) fs' (pre ++ l)) l →
    delete_videos_err f = false →
    delete_user_err f = false →
    length (filter (λ r, user_pk r = u) (users d)) = S k →
    commit_err f = false →
    account_path pj throws f u d fs
      (Response 200 (AccountDeleted
                       "Account and all associated data deleted successfully"
                       (length (select_videos_by_user d u)) m))
      (World (without_account d u) fs' (pre ++ l ++
         [Sql (DELETE_videos_WHERE_user_id u)
              (Some (length (select_videos_by_user d u)));
          Sql (DELETE_users_WHERE_id u) (Some (S k));
          Sql COMMIT (Some 0%nat)])).

(** ** The paths through the video handler *)

(** The tables once the rows with id [i] are gone. *)
Definition without_video (d : database) (i : Z) : database :=
  Database (users d) (filter (λ v, video_pk v ≠ i) (videos d)) (txn d).

(** Every run of the video handler, one request at a time, is one of five.
    The answer 404 after the [DELETE] needs another request to remove the
    row between the [SELECT] and the [DELETE], and is not among them. *)
Inductive video_path (pj : string → string) (throws : string → bool)
    (f : video_faults) (u i : Z) (d : database) (fs : gset string)
  : response → world → Prop :=
| get_failed :
    get_err f = true →
    video_path pj throws f u i d fs
      (Response 500 (Error "Failed to delete video"))
      (World d fs [Sql (SELECT_videos_WHERE_id i) None])
| video_absent :
    get_err f = false →
    select_video_by_id d i = None →
    video_path pj throws f u i d fs
      (Response 404 (Error "Video not found"))
      (World d fs [Sql (SELECT_videos_WHERE_id i) (Some 0%nat)])
| access_denied v :
    get_err f = false →
    select_video_by_id d i = Some v →
    user_id v ≠ u →
    video_path pj throws f u i d fs
      (Response 403 (Error "Access denied"))
      (World d fs [Sql (SELECT_videos_WHERE_id i) (Some 1%nat)])
| row_delete_failed v pre l m fs' :
    get_err f = false →
    select_video_by_id d i = Some v →
    user_id v = u →
    pre = [Sql (SELECT_videos_WHERE_id i) (Some 1%nat)] →
    pass pj throws [v] 0 (World d fs pre) m (World d fs' (pre ++ l)) l →
    delete_err f = true →
    video_path pj throws f u i d fs
      (Response 500 (Error "Failed to delete video from database"))
      (World d fs' (pre ++ l ++ [Sql (DELETE_videos_WHERE_id i) None]))
| video_deleted v pre l m fs' k :
    get_err f = false →
    select_video_by_id d i = Some v →
    user_id v = u →
    pre = [Sql (SELECT_videos_WHERE_id i) (Some 1%nat)] →
    pass pj throws [v] 0 (World d fs pre) m (World d fs' (pre ++ l)) l →
    delete_err f = false →
    length (filter (λ v, video_pk v = i) (videos d)) = S k →
    video_path pj throws f u i d fs
      (Response 200 (Message "Video deleted successfully"))
      (World (without_video d i) fs'
         (pre ++ l ++ [Sql (DELETE_videos_WHERE_id i) (Some (S k))])).

(** [id] is the primary key of [videos]. *)
Definition primary_key (d : database) : Prop := NoDup (video_pk <$> videos d).

(** [Number.isSafeInteger]: the integers a JavaScript number holds
    exactly, one by one. An id read from an [INTEGER] column, or taken from
    a token, is a JavaScript number; on safe integers [===] is the
    equality of [Z]. *)
Definition safe_integer (z : Z) : Prop := (- (2 ^ 53 - 1) ≤ z ≤ 2 ^ 53 - 1)%Z.

#[global] Instance safe_integer_dec z : Decision (safe_integer z).
Proof. unfold safe_integer. apply _. Defined.

(** Every [user_id] of [videos] is a safe integer. *)
Definition safe_owners (d : database) : Prop :=
  Forall (λ v, safe_integer (user_id v)) (videos d).

#[global] Instance safe_owners_dec d : Decision (safe_owners d).
Proof. unfold safe_owners. apply _. Defined.

(** ** The task list *)

Module Tasks.

(** The values [JSON.parse] produces. A number is carried as the 64 bits of
    its double; the task list never computes with one. The fields of an
    object are listed in the order [JSON.stringify] prints them. *)
#[warnings="-register-all"]
Inductive json :=
| JNull
| JBool (b : bool)
| JNumber (bits : N)
| JString (s : string)
| JArray (items : list json)
| JObject (fields : list (string * json)).

#[global] Instance json_inhabited : Inhabited json := populate JNull.

Inductive js_error := TypeError | SyntaxError | SystemError.

(** How a JavaScript expression completes. *)
Inductive completion (A : Type) :=
| Normal (a : A)
| Throw (e : js_error).
Arguments Normal {A} a.
Arguments Throw {A} e.

#[global] Instance completion_ret : MRet completion := @Normal.
#[global] Instance completion_bind : MBind completion :=
  λ A B f m, match m with Normal a => f a | Throw e => Throw e end.

(** [try { body } catch (error) { handler }] *)
Definition try_catch {A} (body : completion A) (handler : A) : A :=
  match body with Normal a => a | Throw _ => handler end.

(** The built-in functions the controller calls. *)
Record runtime := Runtime {
  JSON_parse : string → option json;
  JSON_stringify : json → string;
  trim : string → string
}.

(** [String.prototype.trim] on strings whose white space is ASCII. *)
Fixpoint trim_start (s : string) : string :=
  match s with
  | String a s' => if Ascii.is_space a then trim_start s' else s
  | EmptyString => EmptyString
  end.

Definition ascii_trim (s : string) : string :=
  String.rev (trim_start (String.rev (trim_start s))).

(** The field [k] of an object as an association list; [None] is
    [undefined]. *)
Fixpoint field (k : string) (fields : list (string * json)) : option json :=
  match fields with
  | [] => None
  | (k', v) :: rest => if decide (k' = k) then Some v else field k rest
  end.

(** [o.k = v] on the fields of [o]: a field that exists keeps its place, a
    new one goes last. *)
Fixpoint assign (k : string) (v : json) (fields : list (string * json))
  : list (string * json) :=
  match fields with
  | [] => [(k, v)]
  | (k', v') :: rest =>
      if decide (k' = k) then (k, v) :: rest else (k', v') :: assign k v rest
  end.

(** [x.k] for a name [k] no prototype defines ([id], [text], [completed]):
    a [TypeError] on [undefined] and [null], [undefined] on every value
    but an object. *)
Definition get_prop (x : option json) (k : string) : completion (option json) :=
  match x with
  | None | Some JNull => Throw TypeError
  | Some (JObject fields) => Normal (field k fields)
  | Some _ => Normal None
  end.

(** [x.k = v]; only reached for objects. *)
Definition set_prop (k : string) (v : json) (x : json) : json :=
  match x with
  | JObject fields => JObject (assign k v fields)
  | _ => x
  end.

(** [x === undefined] *)
Definition is_undefined (x : option json) : bool :=
  match x with None => true | Some _ => false end.

(** [x === s] for a string [s]. *)
Definition strict_equal_string (x : option json) (s : string) : bool :=
  match x with
  | Some (JString s') => bool_decide (s' = s)
  | _ => false
  end.

(** [text.trim()]: only a string has the method. *)
Definition call_trim (rt : runtime) (text : json) : completion string :=
  match text with
  | JString s => Normal (trim rt s)
  | _ => Throw TypeError
  end.

Record reply := Reply { code : nat; sent : json }.

Definition error_body (msg : string) : json := JObject [("error", JString msg)].

(** [req.params.id] and [req.body] ([None] when no body was parsed). *)
Record update_request := UpdateRequest { params_id : string; body : option json }.

(** How a call of [fs.writeFileSync] ends: it returns, and the file holds
    the text, or it throws and leaves the file in the state [remains] (as it
    was when the file could not be opened, cut short when the disk filled
    up). *)
Inductive write_end :=
| Returns
| Throws (remains : option string).

(** A step of a handler: it runs on the file, may change it, and returns
    or throws. What a step did to the file stays done when it, or a later
    step, throws. *)
Definition action (A : Type) : Type := option string → completion A * option string.

#[global] Instance action_ret : MRet action := λ A a file, (Normal a, file).
#[global] Instance action_bind : MBind action :=
  λ A B f m file,
    match m file with
    | (Normal a, file') => f a file'
    | (Throw e, file') => (Throw e, file')
    end.

(** A step that leaves the file alone. *)
Definition pure {A} (c : completion A) : action A := λ file, (c, file).

(** [try { body } catch (error) { handler }] around steps: the answer and
    the file afterwards. *)
Definition try_catch_action {A} (body : action A) (handler : A)
  : option string → A * option string :=
  λ file,
    match body file with
    | (Normal a, file') => (a, file')
    | (Throw _, file') => (handler, file')
    end.

Section Controller.

Variable rt : runtime.

(** The file at [dataPath]: its text, or [None] when it cannot be read. *)
Definition fs_readFileSync (file : option string) : completion string :=
  match file with
  | Some data => Normal data
  | None => Throw SystemError
  end.

Definition parse (data : string) : completion json :=
  match JSON_parse rt data with
  | Some v => Normal v
  | None => Throw SyntaxError
  end.

Definition readTasks (file : option string) : json :=
  try_catch (data ← fs_readFileSync file; parse data) (JArray []).

(** [readTasks()] as a step. *)
Definition read : action json := λ file, (Normal (readTasks file), file).

(** [fs.writeFileSync(dataPath, JSON.stringify(tasks, null, 2))]; [disk]
    says how the write ends. *)
Definition writeTasks (disk : write_end) (tasks : json) : action unit :=
  λ _,
    match disk with
    | Returns => (Normal tt, Some (JSON_stringify rt tasks))
    | Throws remains => (Throw SystemError, remains)
    end.

Definition getTasks (file : option string) : reply :=
  try_catch
    (let tasks := readTasks file in
     mret (Reply 200 tasks))
    (Reply 500 (error_body "Failed to fetch tasks")).

(** [tasks.findIndex(task => task.id === id)] from index [i] on; [None] is
    [-1]. *)
Fixpoint findIndex_from (id : string) (tasks : list json) (i : nat)
  : completion (option nat) :=
  match tasks with
  | [] => Normal None
  | task :: rest =>
      task_id ← get_prop (Some task) "id";
      if strict_equal_string task_id id then Normal (Some i)
      else findIndex_from id rest (S i)
  end.

Definition findIndex (id : string) (tasks : json) : completion (option nat) :=
  match tasks with
  | JArray items => findIndex_from id items 0%nat
  | _ => Throw TypeError
  end.

(** [tasks[i]] and [tasks[i] = x] on an array. *)
Definition item (i : nat) (tasks : json) : json :=
  match tasks with
  | JArray items => items !!! i
  | _ => JNull
  end.

Definition update_item (i : nat) (f : json → json) (tasks : json) : json :=
  match tasks with
  | JArray items => JArray (alter f i items)
  | _ => tasks
  end.

(** [exports.updateTask]; [now] is [new Date().toISOString()] and [disk]
    how the write ends, if there is one. The result is the reply and the
    file afterwards. *)
Definition updateTask (disk : write_end) (now : string) (req : update_request)
  : option string → reply * option string :=
  try_catch_action
    (let id := params_id req in
     text ← pure (get_prop (body req) "text");
     completed ← pure (get_prop (body req) "completed");
     if is_undefined text && is_undefined completed then
       mret (Reply 400 (error_body "No fields to update"))
     else
       blank ← pure (match text with
                     | Some t => s ← call_trim rt t; mret (bool_decide (s = ""))
                     | None => mret false
                     end);
       if (blank : bool) then
         mret (Reply 400 (error_body "Task text cannot be empty"))
       else
         tasks ← read;
         taskIndex ← pure (findIndex id tasks);
         match taskIndex with
         | None => mret (Reply 404 (error_body "Task not found"))
         | Some i =>
             tasks ← pure (match text with
                           | Some t =>
                               s ← call_trim rt t;
                               mret (update_item i (set_prop "text" (JString s)) tasks)
                           | None => mret tasks
                           end);
             let tasks := match completed with
                          | Some c => update_item i (set_prop "completed" c) tasks
                          | None => tasks
                          end in
             let tasks := update_item i (set_prop "updatedAt" (JString now)) tasks in
             writeTasks disk tasks;;
             mret (Reply 200 (item i tasks))
         end)
    (Reply 500 (error_body "Failed to update task")).

(** The fields [updateTask] leaves in a task that had the fields [old],
    for a [text] that is a string or absent. *)
Definition updated (now : string) (text completed : option json)
    (old : list (string * json)) : list (string * json) :=
  let with_text := match text with
                   | Some (JString s) => assign "text" (JString (trim rt s)) old
                   | _ => old
                   end in
  let with_completed := match completed with
                        | Some c => assign "completed" c with_text
                        | None => with_text
                        end in
  assign "updatedAt" (JString now) with_completed.

End Controller.

End Tasks.

(** ** Sample data *)

Module Fixture.

Definition app_dir (url : string) : string := ("/srv/app" ++ url)%string.
Definition never_throws (p : string) : bool := false.
Definition always_throws (p : string) : bool := true.

Definition alice : user_row :=
  UserRow 7 "Alice" "alice@example.org" "$2a$10$Zk1" "2024-03-01 10:00:00".
Definition bob : user_row :=
  UserRow 8 "Bob" "bob@example.org" "$2a$10$Qr7" "2024-03-02 11:30:00".
Definition carol : user_row :=
  UserRow 9 "Carol" "carol@example.org" "$2a$10$Lm3" "2024-03-03 08:15:00".

Definition clip : video_row :=
  VideoRow 1 "Clip" "" "/uploads/video-1.mp4" "file" 7 "2024-03-05 09:00:00".
Definition talk : video_row :=
  VideoRow 2 "Talk" "" "https://example.org/talk" "link" 7 "2024-03-06 09:00:00".
Definition demo : video_row :=
  VideoRow 3 "Demo" "" "/uploads/video-3.mp4" "file" 8 "2024-03-07 09:00:00".
Definition lecture : video_row :=
  VideoRow 4 "Lecture" "" "https://example.org/lecture" "link" 9 "2024-03-08 09:00:00".

Definition store : database :=
  Database [alice; bob; carol] [clip; talk; demo; lecture] None.

(** The row of Alice is gone, her videos are not. *)
Definition orphaned : database :=
  Database [bob; carol] [clip; talk; demo; lecture] None.

Definition disk : gset string :=
  {[ "/srv/app/uploads/video-1.mp4"; "/srv/app/uploads/video-3.mp4" ]}.

(** The file of [demo] is missing. *)
Definition disk_without_demo : gset string := {[ "/srv/app/uploads/video-1.mp4" ]}.

Definition commit_fails : account_faults := AccountFaults false false false true.

Import Tasks.

Definition milk : json :=
  JObject [("id", JString "a1"); ("text", JString "Buy milk");
           ("completed", JBool false);
           ("createdAt", JString "2024-03-01T10:00:00.000Z");
           ("updatedAt", JString "2024-03-01T10:00:00.000Z")].
Definition bread : json :=
  JObject [("id", JString "b2"); ("text", JString "Buy bread");
           ("completed", JBool false);
           ("createdAt", JString "2024-03-02T10:00:00.000Z");
           ("updatedAt", JString "2024-03-02T10:00:00.000Z")].

(** A runtime that reads two documents and takes every other text for
    malformed. *)
Definition two_documents : runtime :=
  {| JSON_parse := λ data,
       if decide (data = "[]") then Some (JArray [])
       else if decide (data = "<milk, bread>") then Some (JArray [milk; bread])
       else None;
     JSON_stringify := λ _, "<written>";
     trim := ascii_trim |}.

End Fixture.

(** ** Creating and deleting tasks *)

Module TaskController.
Import Tasks.

(** A number is falsy when it is [0], [-0] or [NaN]. *)
Definition number_truthy (bits : N) : bool :=
  let magnitude := (bits mod 2 ^ 63)%N in
  negb (magnitude =? 0)%N && (magnitude <=? 0x7FF0000000000000)%N.

(** [!x] is [negb (truthy x)]. *)
Definition truthy (x : option json) : bool :=
  match x with
  | None | Some JNull => false
  | Some (JBool b) => b
  | Some (JNumber bits) => number_truthy bits
  | Some (JString s) => negb (bool_decide (s = ""))
  | Some (JArray _) | Some (JObject _) => true
  end.

(** [tasks.push(x)]: only an array has the method. *)
Definition push (x : json) (tasks : json) : completion json :=
  match tasks with
  | JArray items => Normal (JArray (items ++ [x]))
  | _ => Throw TypeError
  end.

(** [tasks.splice(i, 1)] on an array. *)
Definition splice_one (i : nat) (tasks : json) : json :=
  match tasks with
  | JArray items => JArray (delete i items)
  | _ => tasks
  end.

(** [task.id === id], for a [task] that is not [null]. *)
Definition has_id (id : string) (task : json) : bool :=
  match task with
  | JObject fields => strict_equal_string (field "id" fields) id
  | _ => false
  end.

(** What [findIndex] passes over: a task that is not [null] and has
    another id, or none. *)
Definition passed_over (id : string) (task : json) : Prop :=
  task ≠ JNull ∧ has_id id task = false.

(** The object [createTask] builds. *)
Definition new_task (id text : string) (completed : json) (createdAt updatedAt : string)
  : json :=
  JObject [("id", JString id); ("text", JString text); ("completed", completed);
           ("createdAt", JString createdAt); ("updatedAt", JString updatedAt)].

Section Controller.

Variable rt : runtime.

(** [exports.createTask]; [uuid] is what [uuidv4()] returns, [now1] and
    [now2] are the two [new Date().toISOString()], [disk] is how the write
    ends, if there is one. *)
Definition createTask (disk : write_end) (uuid now1 now2 : string) (body : option json)
  : option string → reply * option string :=
  try_catch_action
    (text ← pure (get_prop body "text");
     given ← pure (get_prop body "completed");
     let completed := default (JBool false) given in
     blank ← pure (if truthy text then
                     match text with
                     | Some t => s ← call_trim rt t; mret (bool_decide (s = ""))
                     | None => mret true
                     end
                   else mret true);
     if (blank : bool) then
       mret (Reply 400 (error_body "Task text is required"))
     else
       tasks ← read rt;
       trimmed ← pure (match text with
                       | Some t => call_trim rt t
                       | None => Throw TypeError
                       end);
       let newTask := new_task uuid trimmed completed now1 now2 in
       tasks ← pure (push newTask tasks);
       writeTasks rt disk tasks;;
       mret (Reply 201 newTask))
    (Reply 500 (error_body "Failed to create task")).

(** [exports.deleteTask], with [id = req.params.id]. *)
Definition deleteTask (disk : write_end) (id : string)
  : option string → reply * option string :=
  try_catch_action
    (tasks ← read rt;
     taskIndex ← pure (findIndex id tasks);
     match taskIndex with
     | None => mret (Reply 404 (error_body "Task not found"))
     | Some i =>
         let tasks := splice_one i tasks in
         writeTasks rt disk tasks;;
         mret (Reply 200 (JObject [("message", JString "Task deleted successfully")]))
     end)
    (Reply 500 (error_body "Failed to delete task")).

End Controller.

End TaskController.

(** ** The token check in front of the handlers *)

Module Auth.

(** What a verified token carries: [{ id, email }], as [jwt.sign] is given
    it by the register and login handlers. *)
Record token_payload := TokenPayload { token_id : Z; token_email : string }.

(** [s.split(' ')] *)
Fixpoint split_space (s : string) : list string :=
  match s with
  | EmptyString => [EmptyString]
  | String a s' =>
      if bool_decide (a = Stdlib.Strings.Ascii.Space) then EmptyString :: split_space s'
      else match split_space s' with
           | piece :: rest => String a piece :: rest
           | [] => [String a EmptyString]
           end
  end.

(** No character of [s] is a space. *)
Fixpoint spaceless (s : string) : bool :=
  match s with
  | EmptyString => true
  | String a s' => negb (bool_decide (a = Stdlib.Strings.Ascii.Space)) && spaceless s'
  end.

(** [authHeader && authHeader.split(' ')[1]]; [None] is [undefined]. *)
Definition token_of (authorization : option string) : option string :=
  match authorization with
  | None => None
  | Some authHeader =>
      if bool_decide (authHeader = "") then Some "" else split_space authHeader !! 1%nat
  end.

Section Middleware.

(** [jwt.verify(token, secret, ...)]: the payload of a token that
    verifies. *)
Variable jwt_verify : string → option token_payload.

(** [authenticateToken]: the answer it sends itself, or the [req.user] it
    hands to [next()]. *)
Definition authenticateToken (authorization : option string)
  : response + token_payload :=
  match token_of authorization with
  | None => inl (res_status_json 401 (Error "Access token required"))
  | Some token =>
      if bool_decide (token = "") then
        inl (res_status_json 401 (Error "Access token required"))
      else
        match jwt_verify token with
        | None => inl (res_status_json 403 (Error "Invalid token"))
        | Some user => inr user
        end
  end.

Variable path_join_dirname : string → string.
Variable unlink_throws : string → bool.

(** [app.delete('/api/account', authenticateToken, ...)] *)
Definition DELETE_api_account (f : account_faults) (authorization : option string)
  : IO response :=
  match authenticateToken authorization with
  | inl answer => mret answer
  | inr user => delete_account path_join_dirname unlink_throws f (token_id user)
  end.

(** [app.delete('/api/videos/:id', authenticateToken, ...)] *)
Definition DELETE_api_videos_id (f : video_faults) (authorization : option string)
    (videoId : Z) : IO response :=
  match authenticateToken authorization with
  | inl answer => mret answer
  | inr user => delete_video path_join_dirname unlink_throws f (token_id user) videoId
  end.

End Middleware.

End Auth.

(** ** More sample data *)

Module Samples.
Import Tasks.

Fixpoint json_eqb (x y : json) : bool :=
  match x, y with
  | JNull, JNull => true
  | JBool a, JBool b => Bool.eqb a b
  | JNumber a, JNumber b => (a =? b)%N
  | JString a, JString b => bool_decide (a = b)
  | JArray l, JArray k =>
      (fix all2 (l k : list json) : bool :=
         match l, k with
         | [], [] => true
         | a :: l', b :: k' => json_eqb a b && all2 l' k'
         | _, _ => false
         end) l k
  | JObject l, JObject k =>
      (fix all2 (l k : list (string * json)) : bool :=
         match l, k with
         | [], [] => true
         | (ka, a) :: l', (kb, b) :: k' =>
             bool_decide (ka = kb) && json_eqb a b && all2 l' k'
         | _, _ => false
         end) l k
  | _, _ => false
  end.

(** A runtime for a finite shelf of documents: [JSON.stringify] gives the
    name under which a value is on the shelf, [JSON.parse] the value under
    a name. *)
Fixpoint name_of (shelf : list (string * json)) (v : json) : string :=
  match shelf with
  | [] => "?"
  | (n, v') :: rest => if json_eqb v' v then n else name_of rest v
  end.

Definition shelf_runtime (shelf : list (string * json)) : runtime :=
  {| JSON_parse := λ data, field data shelf;
     JSON_stringify := name_of shelf;
     trim := ascii_trim |}.

Definition eggs : json :=
  TaskController.new_task "c3" "Buy eggs" (JBool false)
    "2024-03-09T12:00:00.000Z" "2024-03-09T12:00:00.001Z".

Definition shelf : list (string * json) :=
  [("[]", JArray []);
   ("<milk, bread>", JArray [Fixture.milk; Fixture.bread]);
   ("<milk, bread, eggs>", JArray [Fixture.milk; Fixture.bread; eggs]);
   ("<milk>", JArray [Fixture.milk]);
   ("<eggs>", JArray [eggs]);
   ("<settings>", JObject [("theme", JString "dark")])].

Definition rt : runtime := shelf_runtime shelf.

(** A verifier that knows two tokens. *)
Definition verify (token : string) : option Auth.token_payload :=
  if bool_decide (token = "alice.jwt") then
    Some (Auth.TokenPayload 7 "alice@example.org")
  else if bool_decide (token = "bob.jwt") then
    Some (Auth.TokenPayload 8 "bob@example.org")
  else None.

Definition row_delete_fails : video_faults := VideoFaults false true.

End Samples.

(** * Proofs *)

Ltac by_computation :=
  unfold primary_key; apply (bool_decide_unpack _); vm_compute; exact I.

(** ** One pass, step by step *)

Section Pass.

Variable pj : string → string.
Variable throws : string → bool.

Lemma is_local_upload_true v :
  is_local_upload v = true ↔ video_type v = "file" ∧ video_url v ≠ "".
Proof.
  unfold is_local_upload.
  rewrite andb_true_iff, negb_true_iff, bool_decide_eq_true, bool_decide_eq_false.
  done.
Qed.

Lemma is_local_upload_false v :
  is_local_upload v = false ↔ video_type v ≠ "file" ∨ video_url v = "".
Proof.
  rewrite <- not_true_iff_false, is_local_upload_true.
  destruct (decide (video_type v = "file")), (decide (video_url v = "")); tauto.
Qed.

Lemma unlinked_count_app l1 l2 :
  unlinked_count (l1 ++ l2) = (unlinked_count l1 + unlinked_count l2)%nat.
Proof. unfold unlinked_count. by rewrite filter_app, length_app. Qed.

(** The calls one video causes. *)
Lemma remove_video_file_cases v w :
  let r := remove_video_file pj throws v w in
  let p := pj (video_url v) in
  (is_local_upload v = false ∧ r = (false, w))
  ∨ (is_local_upload v = true ∧ (p ∉ files w) ∧
     r = (false, World (db w) (files w) (calls w ++ [ExistsSync p false])))
  ∨ (is_local_upload v = true ∧ p ∈ files w ∧ throws p = true ∧
     r = (false, World (db w) (files w)
                   (calls w ++ [ExistsSync p true; UnlinkSync p false])))
  ∨ (is_local_upload v = true ∧ p ∈ files w ∧ throws p = false ∧
     r = (true, World (db w) (files w ∖ {[p]})
                  (calls w ++ [ExistsSync p true; UnlinkSync p true]))).
Proof.
  unfold remove_video_file. destruct w as [d fs l].
  destruct (is_local_upload v) eqn:Hl; [|by left].
  right. unfold mbind, IO_bind, fs_existsSync, fs_unlinkSync; simpl.
  destruct (decide (pj (video_url v) ∈ fs)) as [Hin|Hin].
  - rewrite !bool_decide_eq_true_2 by done. simpl.
    rewrite <- !(assoc_L (++)). simpl.
    destruct (throws (pj (video_url v))) eqn:Ht; simpl; right; [left|right]; done.
  - rewrite !bool_decide_eq_false_2 by done. by left.
Qed.

(** One video is a pass over a list of one. *)
Lemma remove_video_file_pass v n w :
  ∃ l, pass pj throws [v] n w
         (if (remove_video_file pj throws v w).1 then S n else n)
         (remove_video_file pj throws v w).2 l.
Proof.
  pose proof (remove_video_file_cases v w) as Hc. simpl in Hc.
  set (p := pj (video_url v)) in *.
  destruct Hc as [[Hu Hr]|[(Hu & Hp & Hr)|[(Hu & Hp & Ht & Hr)|(Hu & Hp & Ht & Hr)]]];
    rewrite Hr; simpl.
  - exists []. split; simpl.
    + done.
    + by rewrite app_nil_r.
    + unfold unlinked_count; simpl; lia.
    + constructor.
    + intros q. rewrite elem_of_nil. tauto.
    + unfold unlinked_count; simpl; lia.
    + unfold unlinked_count; simpl; lia.
    + intros v' ->%list_elem_of_singleton Ht Hurl.
      apply is_local_upload_false in Hu. tauto.
    + intros q Hq. by apply elem_of_nil in Hq.
    + intros q ok Hq. by apply elem_of_nil in Hq.
    + intros q Hq. by apply elem_of_nil in Hq.
  - apply is_local_upload_true in Hu as [Hty Hurl].
    exists [ExistsSync p false]. split; simpl.
    + done.
    + done.
    + unfold unlinked_count; simpl; lia.
    + repeat constructor. exists v. rewrite list_elem_of_singleton. done.
    + intros q. split; [|tauto]. intros Hq. split; [done|]. set_solver.
    + unfold unlinked_count; simpl; lia.
    + unfold unlinked_count; simpl; lia.
    + intros v' ->%list_elem_of_singleton _ _ Hin. done.
    + intros q Hq. set_solver.
    + intros q ok Hq. set_solver.
    + intros q Hq. set_solver.
  - apply is_local_upload_true in Hu as [Hty Hurl].
    exists [ExistsSync p true; UnlinkSync p false]. split; simpl.
    + done.
    + done.
    + unfold unlinked_count; simpl; lia.
    + repeat constructor; exists v; rewrite list_elem_of_singleton; done.
    + intros q. split; [|tauto]. intros Hq. split; [done|]. set_solver.
    + unfold unlinked_count; simpl; lia.
    + unfold unlinked_count; simpl; lia.
    + intros v' ->%list_elem_of_singleton _ _ Hin. exists false. set_solver.
    + intros q Hq. assert (q = p) as -> by set_solver. done.
    + intros q ok Hq. assert (q = p) as -> by set_solver. done.
    + intros q Hq. set_solver.
  - apply is_local_upload_true in Hu as [Hty Hurl].
    exists [ExistsSync p true; UnlinkSync p true]. split; simpl.
    + done.
    + done.
    + unfold unlinked_count; simpl; lia.
    + repeat constructor; exists v; rewrite list_elem_of_singleton; done.
    + intros q. rewrite elem_of_difference, elem_of_singleton. split.
      * intros [Hq Hne]. split; [done|]. set_solver.
      * intros [Hq Hn]. split; [done|]. intros ->. apply Hn. set_solver.
    + unfold unlinked_count; simpl.
      rewrite size_difference by set_solver. rewrite size_singleton.
      assert (size (files w) ≠ 0%nat); [|lia].
      intros Hz%size_empty_inv. set_solver.
    + unfold unlinked_count; simpl; lia.
    + intros v' ->%list_elem_of_singleton _ _ Hin. exists true. set_solver.
    + intros q Hq. set_solver.
    + intros q ok Hq. assert (q = p) as -> by set_solver. done.
    + intros q Hq. assert (q = p) as -> by set_solver. done.
Qed.

(** Two passes in a row are one pass. *)
Lemma pass_app vs1 vs2 n w m w1 k w2 l1 l2 :
  pass pj throws vs1 n w m w1 l1 →
  pass pj throws vs2 m w1 k w2 l2 →
  pass pj throws (vs1 ++ vs2) n w k w2 (l1 ++ l2).
Proof.
  intros [E2 E1 E3 E5 E6 E7 E4 E8 E9 E10 E11] [H1 H2 H3 H4 H5 H6 H7 H8 H9 H10 H11].
  split.
  - congruence.
  - rewrite H2, E1. by rewrite (assoc_L (++)).
  - rewrite H3, E3, unlinked_count_app. lia.
  - apply Forall_app. split.
    + eapply Forall_impl; [exact E5|]. intros c (v' & ? & ?). simpl in *.
      exists v'. rewrite elem_of_app. tauto.
    + eapply Forall_impl; [exact H4|]. intros c (v' & ? & ?). simpl in *.
      exists v'. rewrite elem_of_app. tauto.
  - intros q. rewrite H5, E6, elem_of_app. tauto.
  - rewrite unlinked_count_app. lia.
  - rewrite unlinked_count_app, length_app. lia.
  - intros v' Hv' Ht Hu Hp.
    apply elem_of_app in Hv' as [Hv'|Hv'].
    + destruct (E8 v' Hv' Ht Hu Hp) as [ok Hok]. exists ok.
      apply elem_of_app. by left.
    + destruct (decide (pj (video_url v') ∈ files w1)) as [Hin|Hout].
      * destruct (H8 v' Hv' Ht Hu Hin) as [ok Hok]. exists ok.
        apply elem_of_app. by right.
      * exists true. apply elem_of_app. left.
        destruct (decide (UnlinkSync (pj (video_url v')) true ∈ l1)); [done|].
        exfalso. apply Hout. apply E6. done.
  - intros q [Hq|Hq]%elem_of_app; [by apply E9|by apply H9].
  - intros q ok [Hq|Hq]%elem_of_app; [by eapply E10|].
    apply H10 in Hq. by apply E6 in Hq as [? _].
  - intros q [Hq|Hq]%elem_of_app; [by apply E11|by apply H11].
Qed.

Lemma remove_video_files_pass vs : ∀ n w,
  ∃ l, pass pj throws vs n w
         (remove_video_files pj throws vs n w).1
         (remove_video_files pj throws vs n w).2 l.
Proof.
  induction vs as [|v vs IH]; intros n w.
  - exists []. simpl. split; simpl.
    + done.
    + by rewrite app_nil_r.
    + unfold unlinked_count; simpl; lia.
    + constructor.
    + intros p. rewrite elem_of_nil. tauto.
    + unfold unlinked_count; simpl; lia.
    + unfold unlinked_count; simpl; lia.
    + intros v Hv. by apply elem_of_nil in Hv.
    + intros p Hp. by apply elem_of_nil in Hp.
    + intros p ok Hp. by apply elem_of_nil in Hp.
    + intros p Hp. by apply elem_of_nil in Hp.
  - simpl. unfold mbind at 1 2, IO_bind.
    destruct (remove_video_file_pass v n w) as [l1 H1].
    destruct (remove_video_file pj throws v w) as [b w1]. simpl in H1.
    destruct (IH (if b then S n else n) w1) as [l2 H2].
    exists (l1 ++ l2). by apply (pass_app [v] vs) with (m := if b then S n else n) (w1 := w1).
Qed.

End Pass.

(** ** The handlers follow their paths *)

Section AccountPaths.

Variable pj : string → string.
Variable throws : string → bool.

Lemma filter_twice {A} (P : A → Prop) `{∀ x, Decision (P x)} (l : list A) :
  filter P (filter P l) = filter P l.
Proof.
  induction l as [|x l IH]; [done|].
  rewrite filter_cons. destruct (decide (P x)).
  - rewrite filter_cons_True by done. by rewrite IH.
  - done.
Qed.

Lemma delete_account_path f u d fs :
  idle d →
  account_path pj throws f u d fs
    (delete_account pj throws f u (request d fs)).1
    (delete_account pj throws f u (request d fs)).2.
Proof.
  destruct d as [us vs t]. unfold idle. simpl. intros ->.
  destruct f as [e1 e2 e3 e4].
  unfold delete_account, request, db_all, mbind, IO_bind, mret, IO_ret.
  unfold db_run at 1 2. simpl.
  destruct e1; simpl.
  { by apply select_failed. }
  set (pre := [Sql BEGIN_TRANSACTION (Some 0%nat);
               Sql (SELECT_videos_WHERE_user_id u)
                 (Some (length (select_videos_by_user (Database us vs (Some (us, vs))) u)))]).
  set (d := Database us vs None).
  set (own := select_videos_by_user (Database us vs (Some (us, vs))) u).
  assert (Hown : own = select_videos_by_user d u) by done.
  destruct (remove_video_files_pass pj throws own 0
              (World (Database us vs (Some (us, vs))) fs pre)) as [l Hp].
  destruct (remove_video_files pj throws own 0 _) as [m wb]. simpl in Hp.
  pose proof Hp as [Hdb Hcalls _ _ _ _ _ _ _ _ _].
  destruct wb as [db1 fs' cs]. simpl in Hdb, Hcalls. subst db1 cs.
  rewrite Hown in Hp. fold own in pre.
  unfold db_run at 1. simpl.
  destruct e2; simpl.
  { rewrite <- ?(assoc_L (++)); simpl.
    by refine (delete_videos_failed pj throws _ u d fs pre l m fs' _ _ _ _). }
  unfold db_run at 1. simpl.
  destruct e3; simpl.
  { rewrite <- ?(assoc_L (++)); simpl.
    by refine (delete_user_failed pj throws _ u d fs pre l m fs' _ _ _ _ _). }
  destruct (length (filter (λ r, user_pk r = u) us)) as [|k] eqn:Hk; simpl.
  { rewrite <- ?(assoc_L (++)); simpl.
    refine (user_not_found pj throws _ u d fs pre l m fs' _ _ _ _ _ _); try done.
    simpl. by apply nil_length_inv. }
  destruct e4; simpl.
  { rewrite <- ?(assoc_L (++)); simpl.
    by refine (commit_failed pj throws _ u d fs pre l m fs' k _ _ _ _ _ _ _). }
  rewrite filter_twice. rewrite <- ?(assoc_L (++)); simpl.
  by refine (committed pj throws _ u d fs pre l m fs' k _ _ _ _ _ _ _).
Qed.

End AccountPaths.

Section VideoPaths.

Variable pj : string → string.
Variable throws : string → bool.

Lemma delete_video_path f u i d fs :
  video_path pj throws f u i d fs
    (delete_video pj throws f u i (request d fs)).1
    (delete_video pj throws f u i (request d fs)).2.
Proof.
  destruct f as [e1 e2].
  unfold delete_video, request, db_get, mbind, IO_bind, mret, IO_ret.
  unfold db_run at 1. simpl.
  destruct e1; simpl.
  { by apply get_failed. }
  destruct (select_video_by_id d i) as [v|] eqn:Hsel; simpl.
  2: { by apply video_absent. }
  destruct (decide (user_id v = u)) as [Hu|Hu].
  2: { rewrite bool_decide_eq_false_2 by done. simpl. by eapply access_denied. }
  rewrite bool_decide_eq_true_2 by done. simpl.
  set (pre := [Sql (SELECT_videos_WHERE_id i) (Some 1%nat)]).
  destruct (remove_video_file_pass pj throws v 0 (World d fs pre)) as [l Hp].
  destruct (remove_video_file pj throws v _) as [b wb]. simpl in Hp.
  pose proof Hp as [Hdb Hcalls _ _ _ _ _ _ _ _ _].
  destruct wb as [db1 fs' cs]. simpl in Hdb, Hcalls. subst db1 cs.
  unfold db_run. simpl.
  destruct e2; simpl.
  { by refine (row_delete_failed pj throws _ u i d fs v pre l _ fs' _ _ _ _ _ _). }
  destruct (length (filter (λ v, video_pk v = i) (videos d))) as [|k] eqn:Hk; simpl.
  { exfalso. apply nil_length_inv in Hk. unfold select_video_by_id in Hsel.
    by rewrite Hk in Hsel. }
  by refine (video_deleted pj throws _ u i d fs v pre l _ fs' k _ _ _ _ _ _ _).
Qed.

End VideoPaths.

(** ** Facts about logs and tables *)

Lemma pass_no_sql pj throws vs n w m w' l c :
  pass pj throws vs n w m w' l → c ∈ l → is_sql c = false.
Proof.
  intros Hp Hc. destruct Hp as [_ _ _ Ho _ _ _ _ _ _ _].
  rewrite Forall_forall in Ho. destruct (Ho c Hc) as (v & _ & _ & _ & Hpath).
  by destruct c.
Qed.

Lemma pass_sql_absent pj throws vs n w m w' l q r :
  pass pj throws vs n w m w' l → Sql q r ∉ l.
Proof. intros Hp Hc. by apply (pass_no_sql _ _ _ _ _ _ _ _ _ Hp) in Hc. Qed.

Lemma length_filter_split {A} (P : A → Prop) `{∀ x, Decision (P x)} (l : list A) :
  (length (filter P l) + length (filter (λ x, ¬ P x) l) = length l)%nat.
Proof.
  rewrite <- length_app. apply Permutation_length, filter_app_complement.
Qed.

Lemma unlinked_count_cons_sql q r l :
  unlinked_count (Sql q r :: l) = unlinked_count l.
Proof. unfold unlinked_count. by rewrite filter_cons_False by (simpl; tauto). Qed.

(** A log made of statements, then filesystem calls, then statements
    again: whatever precedes an [unlinkSync] is the first part and some of
    the second. *)
Lemma before_unlink pre l tail before p ok after :
  Forall (λ c, is_sql c = true) pre →
  Forall (λ c, is_sql c = false) l →
  Forall (λ c, is_sql c = true) tail →
  pre ++ l ++ tail = before ++ UnlinkSync p ok :: after →
  ∃ k k', before = pre ++ k ∧ l = k ++ UnlinkSync p ok :: k'.
Proof.
  intros Hpre Hl Htail E.
  assert (Hx : ∀ l0, Forall (λ c, is_sql c = true) l0 → UnlinkSync p ok ∉ l0).
  { intros l0 H0 Hin. rewrite Forall_forall in H0. by apply H0 in Hin. }
  apply app_eq_inv in E as [(k & E1 & E2)|(k & E1 & E2)].
  - destruct k as [|x k].
    + rewrite app_nil_r in E1. subst before. simpl in E2.
      destruct l as [|y l].
      * exfalso. apply (Hx tail Htail). simpl in E2. rewrite <- E2. left.
      * simpl in E2. injection E2 as <- ->. exists [], l. by rewrite app_nil_r.
    + simpl in E2. injection E2 as <- ->.
      exfalso. apply (Hx pre Hpre). rewrite E1. set_solver.
  - symmetry in E2. apply app_eq_inv in E2 as [(k2 & E3 & E4)|(k2 & E3 & E4)].
    + exfalso. apply (Hx tail Htail). rewrite E4. set_solver.
    + destruct k2 as [|x k2].
      * exfalso. apply (Hx tail Htail). simpl in E4. rewrite <- E4. left.
      * simpl in E4. injection E4 as <- ->. exists k, k2. done.
Qed.

Lemma row_delete_is_sql c : is_sql c = false → is_row_delete_or_commit c = false.
Proof. by destruct c. Qed.

Lemma unlinked_count_none l :
  (∀ p, UnlinkSync p true ∉ l) → unlinked_count l = 0%nat.
Proof.
  unfold unlinked_count. induction l as [|c l IH]; intros Hn; [done|].
  rewrite filter_cons. destruct (decide (is_unlinked c)) as [Hc|Hc].
  - destruct c as [| |p [|]]; try done. exfalso. apply (Hn p). left.
  - apply IH. intros p Hp. apply (Hn p). by right.
Qed.

(** ** Deleting an account *)

Section Account.

Variable pj : string → string.
Variable throws : string → bool.

Local Abbreviation run f u d fs := (delete_account pj throws f u (request d fs)).

(** Both handlers leave an idle connection idle. *)
Lemma delete_account_idle f u d fs : idle d → idle (db (run f u d fs).2).
Proof.
  intros Hd. pose proof (delete_account_path pj throws f u d fs Hd) as Hp.
  destruct (run f u d fs) as [r w']. simpl in *.
  inversion Hp; subst; done.
Qed.

(** C1. Whenever the [DELETE] on [users] reports zero rows, the handler
    sends [ROLLBACK] as its last statement and answers 404 "User not
    found"; the connection is left as it was found, so the rows of [videos]
    (those of the actor among them) and of [users] are the same as before
    the request. *)
Theorem delete_account_zero_rows_rolls_back f u d fs :
  idle d →
  Sql (DELETE_users_WHERE_id u) (Some 0%nat) ∈ calls (run f u d fs).2 →
  (run f u d fs).1 = Response 404 (Error "User not found")
  ∧ last (calls (run f u d fs).2) = Some (Sql ROLLBACK (Some 0%nat))
  ∧ db (run f u d fs).2 = d
  ∧ select_videos_by_user (db (run f u d fs).2) u = select_videos_by_user d u
  ∧ videos (db (run f u d fs).2) = videos d
  ∧ users (db (run f u d fs).2) = users d.
Proof.
  intros Hd. pose proof (delete_account_path pj throws f u d fs Hd) as Hp.
  destruct (run f u d fs) as [r w']. simpl in *.
  inversion Hp as [E|pre l m fs' E Hpre Hl|pre l m fs' E Hpre Hl|pre l m fs' E Hpre Hl
                  |pre l m fs' k E Hpre Hl|pre l m fs' k E Hpre Hl];
    subst; simpl; intros Hin;
    repeat (rewrite ?elem_of_app, ?elem_of_cons, ?elem_of_nil in Hin);
    try (destruct_or!; try discriminate; try done;
         by apply (pass_sql_absent _ _ _ _ _ _ _ _ _ _ Hl) in Hin).
  rewrite !app_comm_cons, last_app. done.
Qed.

(** C2. The body of a 200 answer carries two counts. [videosDeleted] is
    the number of rows the [DELETE] on [videos] removed (its [this.changes],
    and the number of rows the table lost); [filesDeleted] is the number
    of [fs.unlinkSync] calls that returned (and the number of paths the
    disk lost). *)
Theorem delete_account_counts f u d fs :
  idle d →
  status (run f u d fs).1 = 200%nat →
  ∃ msg n m,
    content (run f u d fs).1 = AccountDeleted msg n m
    ∧ Sql (DELETE_videos_WHERE_user_id u) (Some n) ∈ calls (run f u d fs).2
    ∧ n = (length (videos d) - length (videos (db (run f u d fs).2)))%nat
    ∧ m = unlinked_count (calls (run f u d fs).2)
    ∧ m = (size fs - size (files (run f u d fs).2))%nat.
Proof.
  intros Hd. pose proof (delete_account_path pj throws f u d fs Hd) as Hp.
  destruct (run f u d fs) as [r w']. simpl in *.
  inversion Hp as [E|pre l m fs' E Hpre Hl|pre l m fs' E Hpre Hl|pre l m fs' E Hpre Hl
                  |pre l m fs' k E Hpre Hl|pre l m fs' k E Hpre Hl];
    subst; simpl; intros Hs; try discriminate.
  eexists _, _, m. split; [done|].
  destruct Hl as [_ _ Hm _ _ Hsz _ _ _ _ _]. simpl in *.
  repeat split.
  - rewrite !elem_of_cons, elem_of_app, !elem_of_cons. tauto.
  - unfold select_videos_by_user.
    pose proof (length_filter_split (λ v, user_id v = u) (videos d)). lia.
  - rewrite Hm. rewrite !unlinked_count_cons_sql, unlinked_count_app.
    rewrite !unlinked_count_cons_sql. unfold unlinked_count at 3. simpl. lia.
  - lia.
Qed.

(** C3. The files are unlinked inside the open transaction and before any
    row goes: whatever the handler did before a call of [fs.unlinkSync]
    starts with the [BEGIN] that succeeded and holds no [DELETE] and no
    [COMMIT]; when the [SELECT] succeeds, every file-type video of the
    actor whose file exists gets its [fs.unlinkSync]. When the [COMMIT]
    fails the handler answers 500 and ends with [ROLLBACK], which puts the
    tables back, while every path that was unlinked stays absent. *)
Theorem delete_account_unlinks_before_rows f u d fs :
  idle d →
  (∀ before p ok after,
     calls (run f u d fs).2 = before ++ UnlinkSync p ok :: after →
     head before = Some (Sql BEGIN_TRANSACTION (Some 0%nat))
     ∧ Forall (λ c, is_row_delete_or_commit c = false) before)
  ∧ (select_err f = false →
     ∀ v, v ∈ select_videos_by_user d u →
          video_type v = "file" → video_url v ≠ "" → pj (video_url v) ∈ fs →
          ∃ ok, UnlinkSync (pj (video_url v)) ok ∈ calls (run f u d fs).2)
  ∧ (Sql COMMIT None ∈ calls (run f u d fs).2 →
     (run f u d fs).1
       = Response 500 (Error "Failed to complete account deletion")
     ∧ last (calls (run f u d fs).2) = Some (Sql ROLLBACK (Some 0%nat))
     ∧ db (run f u d fs).2 = d
     ∧ (∀ p, UnlinkSync p true ∈ calls (run f u d fs).2 →
             p ∉ files (run f u d fs).2)
     ∧ (size (files (run f u d fs).2)
        + unlinked_count (calls (run f u d fs).2) = size fs)%nat).
Proof.
  intros Hd. pose proof (delete_account_path pj throws f u d fs Hd) as Hp.
  destruct (run f u d fs) as [r w']. simpl in *.
  assert (Horder : ∀ l m fs' tail before p ok after,
    pass pj throws (select_videos_by_user d u) 0
      (World (begun d) fs
         [Sql BEGIN_TRANSACTION (Some 0%nat);
          Sql (SELECT_videos_WHERE_user_id u)
            (Some (length (select_videos_by_user d u)))]) m
      (World (begun d) fs'
         ([Sql BEGIN_TRANSACTION (Some 0%nat);
           Sql (SELECT_videos_WHERE_user_id u)
             (Some (length (select_videos_by_user d u)))] ++ l)) l →
    Forall (λ c, is_sql c = true) tail →
    [Sql BEGIN_TRANSACTION (Some 0%nat);
     Sql (SELECT_videos_WHERE_user_id u)
       (Some (length (select_videos_by_user d u)))] ++ l ++ tail
      = before ++ UnlinkSync p ok :: after →
    head before = Some (Sql BEGIN_TRANSACTION (Some 0%nat))
    ∧ Forall (λ c, is_row_delete_or_commit c = false) before).
  { intros l m fs' tail before p ok after Hl Htail E.
    assert (Hfs : Forall (λ c, is_sql c = false) l).
    { apply Forall_forall. intros c Hc. by eapply pass_no_sql. }
    apply before_unlink in E as (k & k' & -> & ->); [|by repeat constructor|done..].
    split; [done|].
    repeat constructor. apply Forall_forall. intros c Hc.
    apply row_delete_is_sql. rewrite Forall_forall in Hfs. apply Hfs. set_solver. }
  assert (Hattempt : ∀ l m fs' tail v,
    pass pj throws (select_videos_by_user d u) 0
      (World (begun d) fs
         [Sql BEGIN_TRANSACTION (Some 0%nat);
          Sql (SELECT_videos_WHERE_user_id u)
            (Some (length (select_videos_by_user d u)))]) m
      (World (begun d) fs'
         ([Sql BEGIN_TRANSACTION (Some 0%nat);
           Sql (SELECT_videos_WHERE_user_id u)
             (Some (length (select_videos_by_user d u)))] ++ l)) l →
    v ∈ select_videos_by_user d u →
    video_type v = "file" → video_url v ≠ "" → pj (video_url v) ∈ fs →
    ∃ ok, UnlinkSync (pj (video_url v)) ok
            ∈ [Sql BEGIN_TRANSACTION (Some 0%nat);
               Sql (SELECT_videos_WHERE_user_id u)
                 (Some (length (select_videos_by_user d u)))] ++ l ++ tail).
  { intros l m fs' tail v Hl Hv Ht Hu Hin.
    destruct (pass_attempts _ _ _ _ _ _ _ _ Hl v Hv Ht Hu Hin) as [ok Hok].
    exists ok. set_solver. }
  inversion Hp as [E|pre l m fs' E Hpre Hl|pre l m fs' E Hpre Hl|pre l m fs' E Hpre Hl
                  |pre l m fs' k E Hpre Hl|pre l m fs' k E Hpre Hl];
    subst; simpl; (split; [|split]).
  all: try (intros before p ok after Hb;
            by eapply Horder; [exact Hl| |exact Hb]; repeat constructor).
  all: try (intros _ v Hv Ht Hu Hin; by eapply Hattempt).
  all: try (intros Hc;
            repeat (rewrite ?elem_of_app, ?elem_of_cons, ?elem_of_nil in Hc);
            destruct_or!; try discriminate; try done;
            by apply (pass_sql_absent _ _ _ _ _ _ _ _ _ _ Hl) in Hc).
  - intros before p ok after Hb. exfalso.
    assert (Hin : UnlinkSync p ok ∈ before ++ UnlinkSync p ok :: after) by set_solver.
    rewrite <- Hb in Hin. set_solver.
  - congruence.
  - intros _. split; [done|]. split.
    { rewrite !app_comm_cons, last_app. done. }
    split; [done|]. destruct Hl as [_ _ _ _ Hfiles Hsz _ _ _ _ _]. simpl in *. split.
    + intros p Hin Hp'. apply Hfiles in Hp' as [_ Hn]. apply Hn.
      repeat (rewrite ?elem_of_app, ?elem_of_cons, ?elem_of_nil in Hin).
      destruct_or!; try discriminate; done.
    + rewrite !unlinked_count_cons_sql, unlinked_count_app.
      rewrite !unlinked_count_cons_sql. unfold unlinked_count at 2. simpl. lia.
Qed.

(** C7. A file that is missing does not make the handler fail. An
    account with one file-type video whose file is not on the disk, or
    cannot be unlinked, is deleted with the counts 1 and 0; the status of
    the answer and the tables the handler leaves do not depend on the disk
    or on whether [fs.unlinkSync] throws; and [filesDeleted] never exceeds
    [videosDeleted]. *)
Theorem delete_account_missing_file f u d fs :
  idle d →
  (∀ v, f = no_account_faults →
        filter (λ r, user_pk r = u) (users d) ≠ [] →
        select_videos_by_user d u = [v] →
        video_type v = "file" →
        pj (video_url v) ∉ fs ∨ throws (pj (video_url v)) = true →
        (run f u d fs).1
          = Response 200
              (AccountDeleted
                 "Account and all associated data deleted successfully" 1 0))
  ∧ (∀ pj2 throws2 fs2,
        status (run f u d fs).1
          = status (delete_account pj2 throws2 f u (request d fs2)).1
        ∧ db (run f u d fs).2
          = db (delete_account pj2 throws2 f u (request d fs2)).2)
  ∧ (∀ msg n m, content (run f u d fs).1 = AccountDeleted msg n m → (m ≤ n)%nat).
Proof.
  intros Hd. pose proof (delete_account_path pj throws f u d fs Hd) as Hp.
  destruct (run f u d fs) as [r w']. simpl in *. split; [|split].
  - intros v -> Hu Hv Ht Hmiss.
    inversion Hp as [E|pre l m fs' E Hpre Hl|pre l m fs' E Hpre Hl|pre l m fs' E Hpre Hl
                    |pre l m fs' k E Hpre Hl Ev Eu Hk|pre l m fs' k E Hpre Hl];
      subst; simpl in *; try discriminate; try done.
    rewrite Hv in *. simpl. f_equal. f_equal.
    destruct Hl as [_ _ Hm Ho _ _ _ _ _ Hex Hret]. simpl in *. rewrite Hm.
    apply unlinked_count_none. intros p Hin.
    pose proof (Hex p true Hin) as Hfs. pose proof (Hret p Hin) as Hok.
    rewrite Forall_forall in Ho. destruct (Ho _ Hin) as (v' & Hv' & _ & _ & Hpath).
    apply list_elem_of_singleton in Hv' as ->. simpl in Hpath.
    injection Hpath as ->. destruct Hmiss; [done|congruence].
  - intros pj2 throws2 fs2.
    pose proof (delete_account_path pj2 throws2 f u d fs2 Hd) as Hp2.
    destruct (delete_account pj2 throws2 f u (request d fs2)) as [r2 w2]. simpl in *.
    inversion Hp; subst; inversion Hp2; subst; simpl; try done; try congruence.
    all: match goal with
         | H1 : filter ?P ?l = [], H2 : length (filter ?P ?l) = S _ |- _ =>
             rewrite H1 in H2; discriminate
         end.
  - intros msg n m Hj.
    inversion Hp as [E|pre l m' fs' E Hpre Hl|pre l m' fs' E Hpre Hl|pre l m' fs' E Hpre Hl
                    |pre l m' fs' k E Hpre Hl|pre l m' fs' k E Hpre Hl];
      subst; simpl in *; try discriminate.
    injection Hj as _ <- <-.
    destruct Hl as [_ _ Hm _ _ _ Hb _ _ _ _]. simpl in *. lia.
Qed.

End Account.

Lemma delete_account_zero_rows_rolls_back_witness :
  (delete_account Fixture.app_dir Fixture.never_throws no_account_faults 7
     (request Fixture.orphaned Fixture.disk)).1
    = Response 404 (Error "User not found")
  ∧ db (delete_account Fixture.app_dir Fixture.never_throws no_account_faults 7
          (request Fixture.orphaned Fixture.disk)).2 = Fixture.orphaned.
Proof.
  assert (H1 : idle Fixture.orphaned) by reflexivity.
  assert (H2 : Sql (DELETE_users_WHERE_id 7) (Some 0%nat)
               ∈ calls (delete_account Fixture.app_dir Fixture.never_throws
                          no_account_faults 7
                          (request Fixture.orphaned Fixture.disk)).2).
  { apply (bool_decide_unpack _). vm_compute. exact I. }
  destruct (delete_account_zero_rows_rolls_back
              Fixture.app_dir Fixture.never_throws no_account_faults 7
              Fixture.orphaned Fixture.disk H1 H2) as (E1 & _ & E2 & _).
  split; [exact E1|exact E2].
Defined.

Lemma delete_account_counts_witness :
  ∃ msg n m,
    content (delete_account Fixture.app_dir Fixture.never_throws no_account_faults 7
            (request Fixture.store Fixture.disk)).1 = AccountDeleted msg n m
    ∧ n = 2%nat ∧ m = 1%nat.
Proof.
  destruct (delete_account_counts Fixture.app_dir Fixture.never_throws
              no_account_faults 7 Fixture.store Fixture.disk)
    as (msg & n & m & Hj & _ & Hn & _ & Hm).
  - reflexivity.
  - vm_compute. reflexivity.
  - exists msg, n, m. split; [exact Hj|]. split.
    + rewrite Hn. vm_compute. reflexivity.
    + rewrite Hm. vm_compute. reflexivity.
Defined.

Lemma delete_account_unlinks_before_rows_witness :
  (delete_account Fixture.app_dir Fixture.never_throws Fixture.commit_fails 7
     (request Fixture.store Fixture.disk)).1
    = Response 500 (Error "Failed to complete account deletion")
  ∧ db (delete_account Fixture.app_dir Fixture.never_throws Fixture.commit_fails 7
          (request Fixture.store Fixture.disk)).2 = Fixture.store
  ∧ ("/srv/app/uploads/video-1.mp4"
      ∉ files (delete_account Fixture.app_dir Fixture.never_throws
                 Fixture.commit_fails 7
                 (request Fixture.store Fixture.disk)).2).
Proof.
  destruct (delete_account_unlinks_before_rows Fixture.app_dir Fixture.never_throws
              Fixture.commit_fails 7 Fixture.store Fixture.disk)
    as (_ & _ & Hcommit).
  - reflexivity.
  - destruct Hcommit as (Hr & _ & Hdb & Hgone & _).
    + by_computation.
    + split; [exact Hr|]. split; [exact Hdb|]. apply Hgone. by_computation.
Defined.

Lemma delete_account_missing_file_witness :
  (delete_account Fixture.app_dir Fixture.never_throws no_account_faults 8
     (request Fixture.store Fixture.disk_without_demo)).1
    = Response 200
        (AccountDeleted "Account and all associated data deleted successfully" 1 0).
Proof.
  destruct (delete_account_missing_file Fixture.app_dir Fixture.never_throws
              no_account_faults 8 Fixture.store Fixture.disk_without_demo)
    as (Hone & _ & _).
  - reflexivity.
  - apply (Hone Fixture.demo).
    + reflexivity.
    + vm_compute. discriminate.
    + vm_compute. reflexivity.
    + reflexivity.
    + left. by_computation.
Defined.

(** ** Deleting a video *)

Lemma select_by_primary_key d v :
  primary_key d → v ∈ videos d → select_video_by_id d (video_pk v) = Some v.
Proof.
  unfold primary_key, select_video_by_id.
  induction (videos d) as [|x l IH]; intros Hnd Hv.
  - by apply elem_of_nil in Hv.
  - rewrite fmap_cons in Hnd. apply NoDup_cons in Hnd as [Hx Hnd].
    apply elem_of_cons in Hv as [->|Hv].
    + by rewrite filter_cons_True.
    + rewrite filter_cons_False; [by apply IH|].
      intros E. apply Hx. rewrite E. apply list_elem_of_fmap. by exists v.
Qed.

Lemma select_after_delete d i : select_video_by_id (without_video d i) i = None.
Proof.
  unfold select_video_by_id, without_video. simpl.
  induction (videos d) as [|x l IH]; [done|].
  rewrite filter_cons. destruct (decide (video_pk x ≠ i)) as [Hx|Hx]; [|done].
  by rewrite filter_cons_False by (intros ?; done).
Qed.

Section Video.

Variable pj : string → string.
Variable throws : string → bool.

Local Abbreviation run f u i d fs := (delete_video pj throws f u i (request d fs)).

Lemma delete_video_idle f u i d fs : idle d → idle (db (run f u i d fs).2).
Proof.
  intros Hd. pose proof (delete_video_path pj throws f u i d fs) as Hp.
  destruct (run f u i d fs) as [r w']. simpl in *.
  inversion Hp; subst; done.
Qed.

(** C4, as the handler has it. After a 200 answer for a file-type video of
    the actor with a locator that is not empty, no row with its id is
    left, and its file is absent unless [fs.unlinkSync] threw on it: the
    handler logs that error and goes on, and the file stays. *)
Theorem delete_video_removes_row_and_file f u d fs v :
  primary_key d →
  v ∈ videos d →
  user_id v = u →
  video_type v = "file" →
  video_url v ≠ "" →
  status (run f u (video_pk v) d fs).1 = 200%nat →
  (v ∉ videos (db (run f u (video_pk v) d fs).2))
  ∧ select_video_by_id (db (run f u (video_pk v) d fs).2) (video_pk v) = None
  ∧ ((pj (video_url v) ∉ files (run f u (video_pk v) d fs).2)
     ∨ (throws (pj (video_url v)) = true
        ∧ UnlinkSync (pj (video_url v)) false
            ∈ calls (run f u (video_pk v) d fs).2)).
Proof.
  intros Hpk Hv Hu Ht Hurl.
  pose proof (delete_video_path pj throws f u (video_pk v) d fs) as Hp.
  pose proof (select_by_primary_key d v Hpk Hv) as Hsel.
  destruct (run f u (video_pk v) d fs) as [r w']. simpl in *.
  inversion Hp as [|Hg Hs|v' Hg Hs|v' pre l m fs' Hg Hs Hu' Hpre Hl
                  |v' pre l m fs' k Hg Hs Hu' Hpre Hl];
    subst; simpl; intros Hst; try discriminate.
  rewrite Hsel in Hs. injection Hs as <-.
  split; [|split].
  - intros Hin. apply list_elem_of_filter in Hin as [Hne _]. done.
  - apply select_after_delete.
  - destruct (decide (pj (video_url v) ∈ fs)) as [Hin|Hout].
    + destruct (pass_attempts _ _ _ _ _ _ _ _ Hl v) as [[|] Hok];
        [by left|done..| |].
      * left. intros Hf. apply (pass_files _ _ _ _ _ _ _ _ Hl) in Hf as [_ Hn]. done.
      * right. split; [by eapply pass_thrown|]. set_solver.
    + left. intros Hf. apply (pass_files _ _ _ _ _ _ _ _ Hl) in Hf as [Hf _]. done.
Qed.

(** C5. For a video of somebody else, with the id of its owner and the
    id of the actor both safe integers, so that [!==] on the two numbers
    is the inequality of the ids, the handler stops after its [SELECT]:
    it makes no filesystem call and sends no [DELETE], and the tables and
    the disk are as before. The answer is 403 "Access denied" whenever the
    [SELECT] itself succeeds. *)
Theorem delete_video_forbidden f u d fs v :
  primary_key d →
  v ∈ videos d →
  safe_integer (user_id v) →
  safe_integer u →
  user_id v ≠ u →
  db (run f u (video_pk v) d fs).2 = d
  ∧ files (run f u (video_pk v) d fs).2 = fs
  ∧ (∃ r, calls (run f u (video_pk v) d fs).2
          = [Sql (SELECT_videos_WHERE_id (video_pk v)) r])
  ∧ (get_err f = false →
     (run f u (video_pk v) d fs).1 = Response 403 (Error "Access denied")).
Proof.
  intros Hpk Hv _ _ Hu.
  pose proof (delete_video_path pj throws f u (video_pk v) d fs) as Hp.
  pose proof (select_by_primary_key d v Hpk Hv) as Hsel.
  destruct (run f u (video_pk v) d fs) as [r w']. simpl in *.
  inversion Hp as [Hg|Hg Hs|v' Hg Hs|v' pre l m fs' Hg Hs Hu' Hpre Hl
                  |v' pre l m fs' k Hg Hs Hu' Hpre Hl];
    subst; simpl; try congruence.
  all: split; [done|]; split; [done|]; split; [by eexists|].
  all: intros; first [done|congruence].
Qed.

(** C8. After a 200 answer, the same request again finds no row: it sends
    its [SELECT] and nothing else, leaves the tables and the disk as the
    first request left them, and answers 404 "Video not found" whenever
    that [SELECT] succeeds. *)
Theorem delete_video_twice f1 f2 u i d fs :
  status (run f1 u i d fs).1 = 200%nat →
  db (delete_video pj throws f2 u i
        (request (db (run f1 u i d fs).2) (files (run f1 u i d fs).2))).2
    = db (run f1 u i d fs).2
  ∧ files (delete_video pj throws f2 u i
             (request (db (run f1 u i d fs).2) (files (run f1 u i d fs).2))).2
    = files (run f1 u i d fs).2
  ∧ (∃ r, calls (delete_video pj throws f2 u i
                   (request (db (run f1 u i d fs).2) (files (run f1 u i d fs).2))).2
          = [Sql (SELECT_videos_WHERE_id i) r])
  ∧ (get_err f2 = false →
     (delete_video pj throws f2 u i
        (request (db (run f1 u i d fs).2) (files (run f1 u i d fs).2))).1
       = Response 404 (Error "Video not found")).
Proof.
  pose proof (delete_video_path pj throws f1 u i d fs) as Hp.
  destruct (run f1 u i d fs) as [r w']. simpl in *.
  inversion Hp as [Hg|Hg Hs|v' Hg Hs|v' pre l m fs' Hg Hs Hu' Hpre Hl
                  |v' pre l m fs' k Hg Hs Hu' Hpre Hl];
    subst; simpl; intros Hst; try discriminate.
  pose proof (select_after_delete d i) as Hnone.
  pose proof (delete_video_path pj throws f2 (user_id v') i
                (without_video d i) fs') as Hp2.
  destruct (delete_video pj throws f2 _ i _) as [r2 w2]. simpl in *.
  inversion Hp2; subst; simpl; try congruence.
  all: split; [done|]; split; [done|]; split; [by eexists|].
  all: intros; first [done|congruence].
Qed.

End Video.

Lemma delete_video_removes_row_and_file_witness :
  (Fixture.clip
    ∉ videos (db (delete_video Fixture.app_dir Fixture.never_throws no_video_faults
                    7 1 (request Fixture.store Fixture.disk)).2))
  ∧ ("/srv/app/uploads/video-1.mp4"
      ∉ files (delete_video Fixture.app_dir Fixture.never_throws no_video_faults
                 7 1 (request Fixture.store Fixture.disk)).2).
Proof.
  destruct (delete_video_removes_row_and_file Fixture.app_dir Fixture.never_throws
              no_video_faults 7 Fixture.store Fixture.disk Fixture.clip)
    as (Hrow & _ & [Hfile|[Hthrown _]]).
  - by_computation.
  - by_computation.
  - reflexivity.
  - reflexivity.
  - vm_compute. discriminate.
  - vm_compute. reflexivity.
  - split; [exact Hrow|exact Hfile].
  - vm_compute in Hthrown. discriminate.
Defined.

(** C4, as stated, fails when [fs.unlinkSync] throws: the handler answers
    200 and the file is still there. *)
Lemma delete_video_file_can_remain :
  ¬ (∀ (pj : string → string) (throws : string → bool) f u d fs v,
       primary_key d →
       v ∈ videos d →
       user_id v = u →
       video_type v = "file" →
       status (delete_video pj throws f u (video_pk v) (request d fs)).1 = 200%nat →
       (v ∉ videos (db (delete_video pj throws f u (video_pk v) (request d fs)).2))
       ∧ ((pj (video_url v)
            ∉ files (delete_video pj throws f u (video_pk v) (request d fs)).2)
          ∨ (pj (video_url v) ∉ fs))).
Proof.
  intros Hclaim.
  destruct (Hclaim Fixture.app_dir Fixture.always_throws no_video_faults 7
              Fixture.store Fixture.disk Fixture.clip) as [_ [Habsent|Habsent]].
  - by_computation.
  - by_computation.
  - reflexivity.
  - reflexivity.
  - vm_compute. reflexivity.
  - apply Habsent. by_computation.
  - apply Habsent. by_computation.
Qed.

Lemma delete_video_forbidden_witness :
  (delete_video Fixture.app_dir Fixture.never_throws no_video_faults 8 1
     (request Fixture.store Fixture.disk)).1
    = Response 403 (Error "Access denied")
  ∧ db (delete_video Fixture.app_dir Fixture.never_throws no_video_faults 8 1
          (request Fixture.store Fixture.disk)).2 = Fixture.store
  ∧ files (delete_video Fixture.app_dir Fixture.never_throws no_video_faults 8 1
             (request Fixture.store Fixture.disk)).2 = Fixture.disk.
Proof.
  destruct (delete_video_forbidden Fixture.app_dir Fixture.never_throws
              no_video_faults 8 Fixture.store Fixture.disk Fixture.clip)
    as (Hdb & Hfs & _ & Hr).
  - by_computation.
  - by_computation.
  - by_computation.
  - by_computation.
  - vm_compute. discriminate.
  - split; [apply Hr; reflexivity|]. split; [exact Hdb|exact Hfs].
Defined.

Lemma delete_video_twice_witness :
  (delete_video Fixture.app_dir Fixture.never_throws no_video_faults 7 1
     (request
        (db (delete_video Fixture.app_dir Fixture.never_throws no_video_faults 7 1
               (request Fixture.store Fixture.disk)).2)
        (files (delete_video Fixture.app_dir Fixture.never_throws no_video_faults 7 1
                  (request Fixture.store Fixture.disk)).2))).1
    = Response 404 (Error "Video not found").
Proof.
  destruct (delete_video_twice Fixture.app_dir Fixture.never_throws
              no_video_faults no_video_faults 7 1 Fixture.store Fixture.disk)
    as (_ & _ & _ & Hr).
  - vm_compute. reflexivity.
  - apply Hr. reflexivity.
Defined.

(** ** Videos that are links *)

Lemma pass_without_uploads pj throws vs n w m w' l :
  pass pj throws vs n w m w' l →
  (∀ v, v ∈ vs → video_type v ≠ "file") →
  l = [] ∧ files w' = files w.
Proof.
  intros Hp Hlinks.
  assert (l = []) as ->.
  { destruct l as [|c l]; [done|]. exfalso.
    pose proof (pass_origin _ _ _ _ _ _ _ _ Hp) as Ho.
    apply Forall_cons in Ho as [(v & Hv & Ht & _) _]. by apply (Hlinks v). }
  split; [done|]. apply set_eq. intros p.
  rewrite (pass_files _ _ _ _ _ _ _ _ Hp p). set_solver.
Qed.

Section Links.

Variable pj : string → string.
Variable throws : string → bool.

(** C6. A video whose type is not [file] causes no filesystem call. The
    block that removes the file of one video does nothing for it; the
    video handler, asked to delete it, sends statements only and leaves
    the disk alone; and every filesystem call of the account handler is
    about the path of a file-type video of the actor, so an account
    with no such video is deleted without any. *)
Theorem links_cause_no_filesystem_call :
  (∀ v w, video_type v ≠ "file" → remove_video_file pj throws v w = (false, w))
  ∧ (∀ f u d fs v,
       primary_key d → v ∈ videos d → video_type v ≠ "file" →
       Forall (λ c, is_sql c = true)
         (calls (delete_video pj throws f u (video_pk v) (request d fs)).2)
       ∧ files (delete_video pj throws f u (video_pk v) (request d fs)).2 = fs)
  ∧ (∀ f u d fs,
       idle d →
       (∀ c, c ∈ calls (delete_account pj throws f u (request d fs)).2 →
             is_sql c = false →
             ∃ v, v ∈ videos d ∧ user_id v = u ∧ video_type v = "file"
                  ∧ call_path c = Some (pj (video_url v)))
       ∧ ((∀ v, v ∈ videos d → user_id v = u → video_type v ≠ "file") →
          Forall (λ c, is_sql c = true)
            (calls (delete_account pj throws f u (request d fs)).2)
          ∧ files (delete_account pj throws f u (request d fs)).2 = fs)).
Proof.
  split; [|split].
  - intros v w Ht. unfold remove_video_file.
    assert (is_local_upload v = false) as -> by (apply is_local_upload_false; tauto).
    done.
  - intros f u d fs v Hpk Hv Ht.
    pose proof (delete_video_path pj throws f u (video_pk v) d fs) as Hp.
    pose proof (select_by_primary_key d v Hpk Hv) as Hsel.
    destruct (delete_video pj throws f u (video_pk v) (request d fs)) as [r w'].
    simpl in *.
    inversion Hp as [Hg|Hg Hs|v' Hg Hs|v' pre l m fs' Hg Hs Hu' Hpre Hl
                    |v' pre l m fs' k Hg Hs Hu' Hpre Hl];
      subst; simpl; try (split; [by repeat constructor|done]).
    all: rewrite Hsel in Hs; injection Hs as <-.
    all: destruct (pass_without_uploads _ _ _ _ _ _ _ _ Hl) as [-> Hfs];
      [by intros ? ->%list_elem_of_singleton|].
    all: simpl in Hfs; split; [by repeat constructor|done].
  - intros f u d fs Hd.
    pose proof (delete_account_path pj throws f u d fs Hd) as Hp.
    destruct (delete_account pj throws f u (request d fs)) as [r w']. simpl in *.
    assert (Hown : ∀ v, v ∈ select_videos_by_user d u ↔ user_id v = u ∧ v ∈ videos d).
    { intros v. unfold select_videos_by_user. by rewrite list_elem_of_filter. }
    inversion Hp as [E|pre l m fs' E Hpre Hl|pre l m fs' E Hpre Hl|pre l m fs' E Hpre Hl
                    |pre l m fs' k E Hpre Hl|pre l m fs' k E Hpre Hl];
      subst; simpl; split.
    all: try (intros c Hc Hn;
              repeat (rewrite ?elem_of_app, ?elem_of_cons, ?elem_of_nil in Hc);
              destruct_or!; subst; try discriminate; try done;
              pose proof (pass_origin _ _ _ _ _ _ _ _ Hl) as Ho;
              rewrite Forall_forall in Ho;
              destruct (Ho c Hc) as (v & Hv & Ht & _ & Hpath);
              apply Hown in Hv as [Hu Hv];
              by exists v).
    all: try (intros Hlinks;
              destruct (pass_without_uploads _ _ _ _ _ _ _ _ Hl) as [-> Hfs];
              [intros v [Hu Hv]%Hown; by apply Hlinks|];
              simpl in Hfs; split; [by repeat constructor|done]).
    intros _. split; [by repeat constructor|done].
Qed.

End Links.

Lemma links_cause_no_filesystem_call_witness :
  Forall (λ c, is_sql c = true)
    (calls (delete_video Fixture.app_dir Fixture.never_throws no_video_faults 7 2
              (request Fixture.store Fixture.disk)).2)
  ∧ files (delete_account Fixture.app_dir Fixture.never_throws no_account_faults 9
             (request Fixture.store Fixture.disk)).2 = Fixture.disk.
Proof.
  pose proof (links_cause_no_filesystem_call Fixture.app_dir Fixture.never_throws)
    as (_ & Hvideo & Haccount).
  split.
  - apply (Hvideo no_video_faults 7 Fixture.store Fixture.disk Fixture.talk).
    + by_computation.
    + by_computation.
    + vm_compute. discriminate.
  - destruct (Haccount no_account_faults 9 Fixture.store Fixture.disk) as [_ Hlinks].
    + reflexivity.
    + destruct Hlinks as [_ Hfs]; [|exact Hfs].
      intros v Hv Hu. apply list_elem_of_In in Hv. simpl in Hv.
      destruct Hv as [<-|[<-|[<-|[<-|[]]]]]; vm_compute in Hu; discriminate.
Defined.

(** ** The task list *)

Module TaskFacts.
Import Tasks.

Lemma field_assign_eq k v fields : field k (assign k v fields) = Some v.
Proof.
  induction fields as [|[k' v'] fields IH]; simpl.
  - by rewrite decide_True.
  - destruct (decide (k' = k)) as [->|Hne]; simpl.
    + by rewrite decide_True.
    + by rewrite decide_False.
Qed.

Lemma field_assign_ne k k' v fields :
  k ≠ k' → field k' (assign k v fields) = field k' fields.
Proof.
  intros Hne. induction fields as [|[k0 v0] fields IH]; simpl.
  - by rewrite decide_False.
  - destruct (decide (k0 = k)) as [->|Hk]; simpl.
    + by rewrite !decide_False.
    + destruct (decide (k0 = k')); done.
Qed.

Lemma alter_as_insert {A} (f : A → A) (i : nat) (l : list A) x :
  l !! i = Some x → alter f i l = <[i := f x]> l.
Proof.
  intros Hx. rewrite list_insert_alter. apply list_alter_ext; [|done].
  intros y Hy. rewrite Hx in Hy. by injection Hy as <-.
Qed.

(** The index [findIndex] returns is that of an object whose [id] is the
    string asked for. *)
Lemma findIndex_from_Some id tasks : ∀ k i,
  findIndex_from id tasks k = Normal (Some i) →
  (k ≤ i)%nat ∧
  ∃ fields, tasks !! (i - k)%nat = Some (JObject fields)
            ∧ field "id" fields = Some (JString id).
Proof.
  induction tasks as [|task tasks IH]; intros k i; simpl; [done|].
  assert (Hrest : findIndex_from id tasks (S k) = Normal (Some i) →
            (k ≤ i)%nat ∧
            ∃ fields, (task :: tasks) !! (i - k)%nat = Some (JObject fields)
                      ∧ field "id" fields = Some (JString id)).
  { intros Hrest. apply IH in Hrest as (Hle & fields & Hl & Hid).
    split; [lia|]. exists fields. split; [|done].
    replace (i - k)%nat with (S (i - S k)) by lia. done. }
  destruct task as [| | | | |fields]; simpl; try done.
  destruct (strict_equal_string (field "id" fields) id) eqn:Heq; [|done].
  intros [= <-]. split; [lia|]. rewrite Nat.sub_diag. simpl.
  exists fields. split; [done|].
  destruct (field "id" fields) as [[]|]; simpl in Heq; try discriminate.
  by apply bool_decide_eq_true in Heq as ->.
Qed.

Section Controller.

Variable rt : runtime.

(** C9. [getTasks] always answers 200: [readTasks] catches whatever
    reading and parsing throw. When the file cannot be read, or its text
    is not JSON, [readTasks] returns the empty array and the answer is
    200 with [[]]. *)
Theorem getTasks_survives_bad_file :
  (∀ file, code (getTasks rt file) = 200%nat)
  ∧ (∀ file,
       file = None ∨ (∃ data, file = Some data ∧ JSON_parse rt data = None) →
       readTasks rt file = JArray []
       ∧ getTasks rt file = Reply 200 (JArray [])).
Proof.
  split; [done|].
  intros file [->|(data & -> & Hbad)]; [done|].
  unfold getTasks, readTasks, parse. simpl. by rewrite Hbad.
Qed.

(** A well-formed update of a task that exists, up to the end of its
    write. *)
Lemma updateTask_found disk now req file text completed tasks i old :
  get_prop (body req) "text" = Normal text →
  get_prop (body req) "completed" = Normal completed →
  ¬ (text = None ∧ completed = None) →
  match text with
  | None => True
  | Some (JString s) => trim rt s ≠ ""
  | Some _ => False
  end →
  readTasks rt file = JArray tasks →
  findIndex_from (params_id req) tasks 0 = Normal (Some i) →
  tasks !! i = Some (JObject old) →
  updateTask rt disk now req file
  = match disk with
    | Returns =>
        (Reply 200 (JObject (updated rt now text completed old)),
         Some (JSON_stringify rt
                 (JArray (<[i := JObject (updated rt now text completed old)]> tasks))))
    | Throws remains => (Reply 500 (error_body "Failed to update task"), remains)
    end.
Proof.
  intros Ht Hc Hsome Hok Hread Hfind Hold.
  pose proof (lookup_lt_Some _ _ _ Hold) as Hlt.
  unfold updateTask, try_catch_action, mbind, action_bind, pure, read, writeTasks,
    updated.
  rewrite Ht, Hc.
  assert (is_undefined text && is_undefined completed = false) as ->.
  { destruct text, completed; try done. exfalso. by apply Hsome. }
  destruct text as [[| | |s| |]|]; try done; simpl.
  - rewrite bool_decide_eq_false_2 by done. simpl.
    rewrite Hread. simpl. rewrite Hfind.
    destruct completed as [c|], disk; simpl; try done.
    all: rewrite !list_alter_alter_eq, (alter_as_insert _ _ _ _ Hold).
    all: by rewrite list_lookup_total_insert_eq.
  - rewrite Hread. simpl. rewrite Hfind.
    destruct completed as [c|]; simpl; [|exfalso; by apply Hsome].
    destruct disk; simpl; try done.
    rewrite !list_alter_alter_eq, (alter_as_insert _ _ _ _ Hold).
    by rewrite list_lookup_total_insert_eq.
Qed.

(** C10. With neither [text] nor [completed] in the body the answer is
    400 and the file is not written. For an id that [findIndex] finds, a
    [text] that is absent or a string not blank, and at least one of the
    two fields given, the handler builds the updated task: [updatedAt] is
    the time of the request, [text] is the trimmed text if one was given
    and [completed] the value given if there was one, and every other
    field of the task ([id] and [createdAt] among them) is as it was.
    When [fs.writeFileSync] returns, the answer is 200 with that task and
    the file holds the same array with the task at that index replaced
    and every other index as it was; read back, the file gives this
    array. When [fs.writeFileSync] throws, the answer is 500 and the file
    is what the failed write left of it. *)
Theorem updateTask_changes_only_what_is_sent disk now req file :
  (get_prop (body req) "text" = Normal None →
   get_prop (body req) "completed" = Normal None →
   updateTask rt disk now req file
     = (Reply 400 (error_body "No fields to update"), file))
  ∧ (∀ text completed tasks i,
       get_prop (body req) "text" = Normal text →
       get_prop (body req) "completed" = Normal completed →
       ¬ (text = None ∧ completed = None) →
       match text with
       | None => True
       | Some (JString s) => trim rt s ≠ ""
       | Some _ => False
       end →
       readTasks rt file = JArray tasks →
       findIndex_from (params_id req) tasks 0 = Normal (Some i) →
       ∃ old new,
         tasks !! i = Some (JObject old)
         ∧ field "id" old = Some (JString (params_id req))
         ∧ (disk = Returns →
            updateTask rt disk now req file
            = (Reply 200 (JObject new),
               Some (JSON_stringify rt (JArray (<[i := JObject new]> tasks)))))
         ∧ (disk = Returns →
            JSON_parse rt (JSON_stringify rt (JArray (<[i := JObject new]> tasks)))
              = Some (JArray (<[i := JObject new]> tasks)) →
            readTasks rt (updateTask rt disk now req file).2
              = JArray (<[i := JObject new]> tasks))
         ∧ (∀ remains, disk = Throws remains →
              updateTask rt disk now req file
              = (Reply 500 (error_body "Failed to update task"), remains))
         ∧ field "updatedAt" new = Some (JString now)
         ∧ match text with
           | Some (JString s) => field "text" new = Some (JString (trim rt s))
           | _ => field "text" new = field "text" old
           end
         ∧ match completed with
           | Some c => field "completed" new = Some c
           | None => field "completed" new = field "completed" old
           end
         ∧ field "id" new = field "id" old
         ∧ field "createdAt" new = field "createdAt" old
         ∧ (∀ k, k ≠ "text" → k ≠ "completed" → k ≠ "updatedAt" →
                 field k new = field k old)
         ∧ length (<[i := JObject new]> tasks) = length tasks
         ∧ (∀ j, j ≠ i → <[i := JObject new]> tasks !! j = tasks !! j)).
Proof.
  split.
  - intros Ht Hc.
    unfold updateTask, try_catch_action, mbind, action_bind, pure.
    rewrite Ht, Hc. done.
  - intros text completed tasks i Ht Hc Hsome Hok Hread Hfind.
    apply findIndex_from_Some in Hfind as Hat.
    destruct Hat as (_ & old & Hold & Hid). rewrite Nat.sub_0_r in Hold.
    pose proof (updateTask_found disk now req file text completed tasks i old
                  Ht Hc Hsome Hok Hread Hfind Hold) as Hrun.
    set (with_text := match text with
                      | Some (JString s) => assign "text" (JString (trim rt s)) old
                      | _ => old
                      end).
    set (with_completed := match completed with
                           | Some c => assign "completed" c with_text
                           | None => with_text
                           end).
    exists old, (updated rt now text completed old).
    split; [done|]. split; [done|].
    split; [by intros ->|].
    split.
    { intros -> Hback. rewrite Hrun. unfold readTasks, parse. simpl.
      by rewrite Hback. }
    split; [by intros remains ->|].
    assert (Htext : ∀ k, k ≠ "text" → field k with_text = field k old).
    { intros k Hk. unfold with_text.
      destruct text as [[| | |s| |]|]; try done. by apply field_assign_ne. }
    assert (Hcompleted : ∀ k, k ≠ "completed" →
              field k with_completed = field k with_text).
    { intros k Hk. unfold with_completed.
      destruct completed; [|done]. by apply field_assign_ne. }
    assert (Hframe : ∀ k, k ≠ "text" → k ≠ "completed" → k ≠ "updatedAt" →
              field k (assign "updatedAt" (JString now) with_completed)
              = field k old).
    { intros k H1 H2 H3.
      rewrite field_assign_ne, Hcompleted, Htext by done. done. }
    unfold updated. fold with_text. fold with_completed.
    split; [apply field_assign_eq|].
    split.
    { rewrite field_assign_ne, Hcompleted by done. unfold with_text.
      destruct text as [[| | |s| |]|]; try done. apply field_assign_eq. }
    split.
    { rewrite field_assign_ne by done. unfold with_completed.
      destruct completed; [apply field_assign_eq|]. by apply Htext. }
    split; [by apply Hframe|]. split; [by apply Hframe|].
    split; [done|]. split; [apply length_insert|].
    intros j Hj. by apply list_lookup_insert_ne.
Qed.

End Controller.

End TaskFacts.

Lemma getTasks_survives_bad_file_witness :
  Tasks.getTasks Fixture.two_documents (Some "{ oops")
    = Tasks.Reply 200 (Tasks.JArray [])
  ∧ Tasks.getTasks Fixture.two_documents None = Tasks.Reply 200 (Tasks.JArray []).
Proof.
  pose proof (TaskFacts.getTasks_survives_bad_file Fixture.two_documents)
    as [_ Hbad].
  split.
  - apply Hbad. right. exists "{ oops". split; reflexivity.
  - apply Hbad. left. reflexivity.
Defined.

Lemma updateTask_changes_only_what_is_sent_witness :
  (∃ new,
     Tasks.updateTask Fixture.two_documents Tasks.Returns "2024-03-09T12:00:00.000Z"
       (Tasks.UpdateRequest "b2"
          (Some (Tasks.JObject [("text", Tasks.JString "  Buy rye bread ")])))
       (Some "<milk, bread>")
     = (Tasks.Reply 200 (Tasks.JObject new),
        Some (Tasks.JSON_stringify Fixture.two_documents
                (Tasks.JArray [Fixture.milk; Tasks.JObject new])))
     ∧ Tasks.field "text" new = Some (Tasks.JString "Buy rye bread")
     ∧ Tasks.field "id" new = Some (Tasks.JString "b2")
     ∧ Tasks.field "completed" new = Some (Tasks.JBool false))
  ∧ Tasks.updateTask Fixture.two_documents (Tasks.Throws (Some ""))
      "2024-03-09T12:00:00.000Z"
      (Tasks.UpdateRequest "b2"
         (Some (Tasks.JObject [("text", Tasks.JString "  Buy rye bread ")])))
      (Some "<milk, bread>")
    = (Tasks.Reply 500 (Tasks.error_body "Failed to update task"), Some "").
Proof.
  split.
  - destruct (TaskFacts.updateTask_changes_only_what_is_sent Fixture.two_documents
                Tasks.Returns "2024-03-09T12:00:00.000Z"
                (Tasks.UpdateRequest "b2"
                   (Some (Tasks.JObject [("text", Tasks.JString "  Buy rye bread ")])))
                (Some "<milk, bread>")) as [_ Hupdate].
    destruct (Hupdate (Some (Tasks.JString "  Buy rye bread ")) None
                [Fixture.milk; Fixture.bread] 1%nat)
      as (old & new & Hold & _ & Hrun & _ & _ & _ & Htext & Hcompleted & Hid & _).
    + reflexivity.
    + reflexivity.
    + intros [Hn _]. discriminate.
    + vm_compute. discriminate.
    + reflexivity.
    + reflexivity.
    + injection Hold as <-. exists new. split; [exact (Hrun eq_refl)|].
      split; [exact Htext|]. split; [exact Hid|exact Hcompleted].
  - destruct (TaskFacts.updateTask_changes_only_what_is_sent Fixture.two_documents
                (Tasks.Throws (Some "")) "2024-03-09T12:00:00.000Z"
                (Tasks.UpdateRequest "b2"
                   (Some (Tasks.JObject [("text", Tasks.JString "  Buy rye bread ")])))
                (Some "<milk, bread>")) as [_ Hupdate].
    destruct (Hupdate (Some (Tasks.JString "  Buy rye bread ")) None
                [Fixture.milk; Fixture.bread] 1%nat)
      as (old & new & _ & _ & _ & _ & Hfails & _).
    + reflexivity.
    + reflexivity.
    + intros [Hn _]. discriminate.
    + vm_compute. discriminate.
    + reflexivity.
    + reflexivity.
    + exact (Hfails (Some "") eq_refl).
Defined.

(** * Further properties of the handlers *)

Lemma filter_complement_nil {A} (P : A → Prop) `{∀ x, Decision (P x)} (l : list A) :
  filter P (filter (λ x, ¬ P x) l) = [].
Proof.
  induction l as [|x l IH]; [done|].
  rewrite filter_cons. destruct (decide (¬ P x)) as [Hx|Hx]; [|done].
  by rewrite filter_cons_False.
Qed.

(** ** The account handler *)

Section AccountMore.

Variable pj : string → string.
Variable throws : string → bool.

Local Abbreviation run f u d fs := (delete_account pj throws f u (request d fs)).

(** X1. The handler changes the tables all at once or not at all: with
    the answer 200 the account and its videos are gone, with any other
    answer the connection is as it was before the request. *)
Theorem delete_account_all_or_nothing f u d fs :
  idle d →
  (status (run f u d fs).1 = 200%nat ∧ db (run f u d fs).2 = without_account d u)
  ∨ (status (run f u d fs).1 ≠ 200%nat ∧ db (run f u d fs).2 = d).
Proof.
  intros Hd. pose proof (delete_account_path pj throws f u d fs Hd) as Hp.
  destruct (run f u d fs) as [r w']. simpl in *.
  inversion Hp; subst; simpl; first [by left|by right].
Qed.

(** X2. After the answer 200 no row of the actor is left in either table,
    every row of another account is still there, no row has appeared, and
    the connection is idle again. *)
Theorem delete_account_spares_other_accounts f u d fs :
  idle d →
  status (run f u d fs).1 = 200%nat →
  (∀ r, r ∈ users (db (run f u d fs).2) ↔ r ∈ users d ∧ user_pk r ≠ u)
  ∧ (∀ v, v ∈ videos (db (run f u d fs).2) ↔ v ∈ videos d ∧ user_id v ≠ u)
  ∧ idle (db (run f u d fs).2).
Proof.
  intros Hd. pose proof (delete_account_path pj throws f u d fs Hd) as Hp.
  destruct (run f u d fs) as [r w']. simpl in *.
  inversion Hp; subst; simpl; intros Hs; try discriminate.
  split; [|split; [|done]].
  - intros r. rewrite list_elem_of_filter. tauto.
  - intros v. rewrite list_elem_of_filter. tauto.
Qed.

(** X3. The handler never creates a path, and a path it removes is the
    path of a file-type video of the actor on which [fs.unlinkSync] does
    not throw. *)
Theorem delete_account_removes_own_files_only f u d fs :
  idle d →
  files (run f u d fs).2 ⊆ fs
  ∧ (∀ p, p ∈ fs → p ∉ files (run f u d fs).2 →
          throws p = false
          ∧ ∃ v, v ∈ videos d ∧ user_id v = u ∧ video_type v = "file"
                 ∧ video_url v ≠ "" ∧ p = pj (video_url v)).
Proof.
  intros Hd. pose proof (delete_account_path pj throws f u d fs Hd) as Hp.
  destruct (run f u d fs) as [r w']. simpl in *.
  assert (Hpass : ∀ pre l m fs',
    pass pj throws (select_videos_by_user d u) 0
      (World (begun d) fs pre) m (World (begun d) fs' (pre ++ l)) l →
    fs' ⊆ fs
    ∧ (∀ p, p ∈ fs → p ∉ fs' →
            throws p = false
            ∧ ∃ v, v ∈ videos d ∧ user_id v = u ∧ video_type v = "file"
                   ∧ video_url v ≠ "" ∧ p = pj (video_url v))).
  { intros pre l m fs' Hl. split.
    - intros p Hin. by apply (pass_files _ _ _ _ _ _ _ _ Hl) in Hin as [? _].
    - intros p Hin Hout.
      destruct (decide (UnlinkSync p true ∈ l)) as [Hun|Hun].
      + split; [by eapply pass_returned|].
        pose proof (pass_origin _ _ _ _ _ _ _ _ Hl) as Ho.
        rewrite Forall_forall in Ho.
        destruct (Ho _ Hun) as (v & Hv & Ht & Hurl & Hpath).
        unfold select_videos_by_user in Hv.
        apply list_elem_of_filter in Hv as [Hu Hv].
        exists v. simpl in Hpath. injection Hpath as ->. done.
      + exfalso. apply Hout. by apply (pass_files _ _ _ _ _ _ _ _ Hl). }
  inversion Hp as [E|pre l m fs' E Hpre Hl|pre l m fs' E Hpre Hl|pre l m fs' E Hpre Hl
                  |pre l m fs' k E Hpre Hl|pre l m fs' k E Hpre Hl];
    subst; simpl; try by eapply Hpass.
  split; [done|]. intros p Hin Hout. done.
Qed.

(** X4. Once the [SELECT] has succeeded the files are removed whatever
    comes next: the file of a file-type video of the actor on which
    [fs.unlinkSync] does not throw is absent after the request, and with
    any answer but 200 its row is still in the table. *)
Theorem delete_account_unlinks_whatever_the_answer f u d fs v :
  idle d →
  select_err f = false →
  v ∈ videos d →
  user_id v = u →
  video_type v = "file" →
  video_url v ≠ "" →
  throws (pj (video_url v)) = false →
  (pj (video_url v) ∉ files (run f u d fs).2)
  ∧ (status (run f u d fs).1 ≠ 200%nat → v ∈ videos (db (run f u d fs).2)).
Proof.
  intros Hd Hsel Hv Hu Ht Hurl Hth.
  pose proof (delete_account_path pj throws f u d fs Hd) as Hp.
  destruct (run f u d fs) as [r w']. simpl in *.
  assert (Hown : v ∈ select_videos_by_user d u).
  { unfold select_videos_by_user. by apply list_elem_of_filter. }
  assert (Hpass : ∀ pre l m fs',
    pass pj throws (select_videos_by_user d u) 0
      (World (begun d) fs pre) m (World (begun d) fs' (pre ++ l)) l →
    pj (video_url v) ∉ fs').
  { intros pre l m fs' Hl Hin.
    apply (pass_files _ _ _ _ _ _ _ _ Hl) in Hin as [Hin Hun]. simpl in Hin.
    destruct (pass_attempts _ _ _ _ _ _ _ _ Hl v Hown Ht Hurl Hin) as [[|] Hok];
      [done|].
    apply (pass_thrown _ _ _ _ _ _ _ _ Hl) in Hok. congruence. }
  inversion Hp as [E|pre l m fs' E Hpre Hl|pre l m fs' E Hpre Hl|pre l m fs' E Hpre Hl
                  |pre l m fs' k E Hpre Hl|pre l m fs' k E Hpre Hl];
    subst; simpl; try congruence.
  all: split; [by eapply Hpass|]; intros Hs; done.
Qed.

(** X5. After the answer 200 the same request again removes nothing: the
    tables and the disk stay as the first request left them, the answer is
    not 200, and it is 404 "User not found" when no statement fails. *)
Theorem delete_account_twice f1 f2 u d fs :
  idle d →
  status (run f1 u d fs).1 = 200%nat →
  db (delete_account pj throws f2 u
        (request (db (run f1 u d fs).2) (files (run f1 u d fs).2))).2
    = db (run f1 u d fs).2
  ∧ files (delete_account pj throws f2 u
             (request (db (run f1 u d fs).2) (files (run f1 u d fs).2))).2
    = files (run f1 u d fs).2
  ∧ status (delete_account pj throws f2 u
              (request (db (run f1 u d fs).2) (files (run f1 u d fs).2))).1
    ≠ 200%nat
  ∧ (f2 = no_account_faults →
     (delete_account pj throws f2 u
        (request (db (run f1 u d fs).2) (files (run f1 u d fs).2))).1
       = Response 404 (Error "User not found")).
Proof.
  intros Hd. pose proof (delete_account_path pj throws f1 u d fs Hd) as Hp.
  destruct (run f1 u d fs) as [r w']. simpl in *.
  inversion Hp as [E|pre l m fs' E Hpre Hl|pre l m fs' E Hpre Hl|pre l m fs' E Hpre Hl
                  |pre l m fs' k E Hpre Hl|pre l m fs' k E Hpre Hl];
    subst; simpl; intros Hs; try discriminate. clear Hp Hl.
  assert (Hidle : idle (without_account d u)) by done.
  assert (Hvideos : select_videos_by_user (without_account d u) u = []).
  { unfold select_videos_by_user. simpl.
    apply (filter_complement_nil (λ v, user_id v = u)). }
  pose proof (delete_account_path pj throws f2 u (without_account d u) fs' Hidle) as Hp2.
  destruct (delete_account pj throws f2 u _) as [r2 w2]. simpl in *.
  inversion Hp2 as [E2|pre2 l2 m2 fs2 E2 Hpre2 Hl2|pre2 l2 m2 fs2 E2 Hpre2 Hl2
                   |pre2 l2 m2 fs2 E2 Hpre2 Hl2|pre2 l2 m2 fs2 k2 E2 Hpre2 Hl2
                   |pre2 l2 m2 fs2 k2 E2 Hpre2 Hl2];
    subst; simpl.
  all: try match goal with
           | Hk : length (filter _ _) = S _ |- _ =>
               simpl in Hk;
               rewrite (filter_complement_nil (λ r, user_pk r = u)) in Hk;
               discriminate
           end.
  all: try (destruct (pass_without_uploads _ _ _ _ _ _ _ _ Hl2) as [_ Hfs];
            [rewrite Hvideos; by intros ? ?%elem_of_nil|]; simpl in Hfs).
  all: repeat split; try done; try congruence.
  all: intros ->; simpl in *; congruence.
Qed.

End AccountMore.

(** ** The video handler *)

Section VideoMore.

Variable pj : string → string.
Variable throws : string → bool.

Local Abbreviation run f u i d fs := (delete_video pj throws f u i (request d fs)).

(** X6. The handler touches one id only: [users] and every row of
    [videos] with another id are as before; with any answer but 200 the
    whole connection is as before, and after 200 no row with the id is
    left. *)
Theorem delete_video_touches_one_id f u i d fs :
  users (db (delete_video pj throws f u i (request d fs)).2) = users d
  ∧ txn (db (delete_video pj throws f u i (request d fs)).2) = txn d
  ∧ (∀ v, video_pk v ≠ i →
          v ∈ videos (db (delete_video pj throws f u i (request d fs)).2)
          ↔ v ∈ videos d)
  ∧ (status (delete_video pj throws f u i (request d fs)).1 ≠ 200%nat →
     db (delete_video pj throws f u i (request d fs)).2 = d)
  ∧ (status (delete_video pj throws f u i (request d fs)).1 = 200%nat →
     ∀ v, v ∈ videos (db (delete_video pj throws f u i (request d fs)).2) → video_pk v ≠ i).
Proof.
  pose proof (delete_video_path pj throws f u i d fs) as Hp.
  destruct (run f u i d fs) as [r w']. simpl in *.
  inversion Hp as [Hg|Hg Hs|v' Hg Hs|v' pre l m fs' Hg Hs Hu' Hpre Hl
                  |v' pre l m fs' k Hg Hs Hu' Hpre Hl];
    subst; simpl.
  1-4: by repeat split.
  split; [done|]. split; [done|]. split; [|split; [done|]].
  - intros w Hw. rewrite list_elem_of_filter. tauto.
  - intros _ w Hw. by apply list_elem_of_filter in Hw as [? _].
Qed.

(** X7. With the ids of the owners and of the actor safe integers, so
    that [!==] on two of them is the inequality of the ids, the handler
    never creates a path, and the only path it can remove is that of the
    row it fetched, when this row belongs to the actor and is a file-type
    video. *)
Theorem delete_video_removes_its_file_only f u i d fs :
  safe_owners d →
  safe_integer u →
  files (run f u i d fs).2 ⊆ fs
  ∧ (∀ p, p ∈ fs → p ∉ files (run f u i d fs).2 →
          ∃ v, select_video_by_id d i = Some v ∧ user_id v = u
               ∧ video_type v = "file" ∧ video_url v ≠ ""
               ∧ p = pj (video_url v) ∧ throws p = false).
Proof.
  intros _ _.
  pose proof (delete_video_path pj throws f u i d fs) as Hp.
  destruct (run f u i d fs) as [r w']. simpl in *.
  assert (Hpass : ∀ v pre l m fs',
    select_video_by_id d i = Some v → user_id v = u →
    pass pj throws [v] 0 (World d fs pre) m (World d fs' (pre ++ l)) l →
    fs' ⊆ fs
    ∧ (∀ p, p ∈ fs → p ∉ fs' →
            ∃ v, select_video_by_id d i = Some v ∧ user_id v = u
                 ∧ video_type v = "file" ∧ video_url v ≠ ""
                 ∧ p = pj (video_url v) ∧ throws p = false)).
  { intros v pre l m fs' Hs Hu Hl. split.
    - intros p Hin. by apply (pass_files _ _ _ _ _ _ _ _ Hl) in Hin as [? _].
    - intros p Hin Hout.
      destruct (decide (UnlinkSync p true ∈ l)) as [Hun|Hun].
      + pose proof (pass_origin _ _ _ _ _ _ _ _ Hl) as Ho.
        rewrite Forall_forall in Ho.
        destruct (Ho _ Hun) as (v' & Hv' & Ht & Hurl & Hpath).
        apply list_elem_of_singleton in Hv' as ->.
        simpl in Hpath. injection Hpath as ->.
        exists v. repeat split; try done. by eapply pass_returned.
      + exfalso. apply Hout. by apply (pass_files _ _ _ _ _ _ _ _ Hl). }
  inversion Hp; subst; simpl; try by eapply Hpass.
  all: split; [done|]; intros p Hin Hout; done.
Qed.

(** X8. The file goes before the row and is not put back: when the
    [DELETE] fails after the file of the actor's video has been unlinked,
    the answer is 500, the row is still in the table and the file is
    gone. *)
Theorem delete_video_failed_delete_loses_file f u d fs v :
  primary_key d →
  v ∈ videos d →
  user_id v = u →
  video_type v = "file" →
  video_url v ≠ "" →
  throws (pj (video_url v)) = false →
  get_err f = false →
  delete_err f = true →
  (run f u (video_pk v) d fs).1
    = Response 500 (Error "Failed to delete video from database")
  ∧ db (run f u (video_pk v) d fs).2 = d
  ∧ (pj (video_url v) ∉ files (run f u (video_pk v) d fs).2).
Proof.
  intros Hpk Hv Hu Ht Hurl Hth Hg He.
  pose proof (delete_video_path pj throws f u (video_pk v) d fs) as Hp.
  pose proof (select_by_primary_key d v Hpk Hv) as Hsel.
  destruct (run f u (video_pk v) d fs) as [r w']. simpl in *.
  inversion Hp as [Hg'|Hg' Hs|v' Hg' Hs|v' pre l m fs' Hg' Hs Hu' Hpre Hl
                  |v' pre l m fs' k Hg' Hs Hu' Hpre Hl];
    subst; simpl; try congruence.
  rewrite Hsel in Hs. injection Hs as <-.
  split; [done|]. split; [done|]. intros Hin.
  apply (pass_files _ _ _ _ _ _ _ _ Hl) in Hin as [Hin Hun]. simpl in Hin.
  destruct (pass_attempts _ _ _ _ _ _ _ _ Hl v) as [[|] Hok];
    [by left|done..| |]; [done|].
  apply (pass_thrown _ _ _ _ _ _ _ _ Hl) in Hok. congruence.
Qed.

(** X9. An id no row has is answered 404 "Video not found" after the
    [SELECT], whoever asks: nothing is deleted and no filesystem call is
    made. *)
Theorem delete_video_unknown_id f u i d fs :
  (∀ v, v ∈ videos d → video_pk v ≠ i) →
  get_err f = false →
  delete_video pj throws f u i (request d fs)
    = (Response 404 (Error "Video not found"),
       World d fs [Sql (SELECT_videos_WHERE_id i) (Some 0%nat)]).
Proof.
  intros Hnone Hg.
  assert (Hsel : select_video_by_id d i = None).
  { unfold select_video_by_id. apply head_None.
    induction (videos d) as [|x l IH]; [done|].
    rewrite filter_cons_False.
    - apply IH. intros v Hv. apply Hnone. by right.
    - apply Hnone. left. }
  pose proof (delete_video_path pj throws f u i d fs) as Hp.
  destruct (run f u i d fs) as [r w']. simpl in *.
  inversion Hp; subst; simpl; congruence.
Qed.

End VideoMore.

(** ** The token check *)

Module AuthFacts.
Import Auth.

Lemma split_space_spaceless s : spaceless s = true → split_space s = [s].
Proof.
  induction s as [|a s IH]; simpl; [done|].
  intros [Ha Hs]%andb_true_iff. apply negb_true_iff in Ha. rewrite Ha.
  by rewrite (IH Hs).
Qed.

Lemma split_space_word s rest :
  spaceless s = true →
  split_space (s ++ String Stdlib.Strings.Ascii.Space rest)%string
    = s :: split_space rest.
Proof.
  induction s as [|a s IH]; simpl.
  - intros _.
    change (split_space (String Stdlib.Strings.Ascii.Space rest)
            = "" :: split_space rest).
    simpl. by rewrite ?bool_decide_eq_true_2.
  - intros [Ha Hs]%andb_true_iff. apply negb_true_iff in Ha.
    change (split_space
              (String a (s ++ String Stdlib.Strings.Ascii.Space rest)%string)
            = String a s :: split_space rest).
    simpl. rewrite Ha. by rewrite (IH Hs).
Qed.

Lemma append_not_empty s t : (s ++ String Stdlib.Strings.Ascii.Space t)%string ≠ "".
Proof. by destruct s. Qed.

Section Middleware.

Variable jwt_verify : string → option token_payload.

(** X10. Without a second word in the [Authorization] header there is no
    token: a missing header, a header without a space, and a header whose
    first space is its last character or is followed by another space are
    all answered 401, and [jwt.verify] is not consulted. *)
Theorem authenticateToken_requires_token :
  authenticateToken jwt_verify None
    = inl (Response 401 (Error "Access token required"))
  ∧ (∀ h, spaceless h = true →
          authenticateToken jwt_verify (Some h)
            = inl (Response 401 (Error "Access token required")))
  ∧ (∀ scheme, spaceless scheme = true →
          authenticateToken jwt_verify (Some (scheme ++ " ")%string)
            = inl (Response 401 (Error "Access token required")))
  ∧ (∀ scheme rest, spaceless scheme = true →
          authenticateToken jwt_verify (Some (scheme ++ "  " ++ rest)%string)
            = inl (Response 401 (Error "Access token required"))).
Proof.
  split; [done|]. split; [|split].
  - intros h Hh. unfold authenticateToken, token_of.
    destruct (decide (h = "")) as [->|Hne]; [done|].
    rewrite bool_decide_eq_false_2 by done.
    by rewrite (split_space_spaceless h Hh).
  - intros scheme Hs. unfold authenticateToken, token_of.
    change (scheme ++ " ")%string
      with (scheme ++ String Stdlib.Strings.Ascii.Space "")%string.
    rewrite bool_decide_eq_false_2 by apply append_not_empty.
    by rewrite (split_space_word scheme "" Hs).
  - intros scheme rest Hs. unfold authenticateToken, token_of.
    change (scheme ++ "  " ++ rest)%string
      with (scheme ++ String Stdlib.Strings.Ascii.Space
                        (String Stdlib.Strings.Ascii.Space rest))%string.
    rewrite bool_decide_eq_false_2 by apply append_not_empty.
    rewrite (split_space_word scheme _ Hs). simpl.
    by rewrite ?bool_decide_eq_true_2.
Qed.

(** X11. The token is the second word of the header, whatever the first
    word is and whatever follows a second space: [jwt.verify] on that
    word alone decides between 403 "Invalid token" and the handler. *)
Theorem authenticateToken_second_word scheme token rest :
  spaceless scheme = true →
  spaceless token = true →
  token ≠ "" →
  rest = "" ∨ (∃ more, rest = String Stdlib.Strings.Ascii.Space more) →
  authenticateToken jwt_verify (Some (scheme ++ " " ++ token ++ rest)%string)
    = match jwt_verify token with
      | None => inl (Response 403 (Error "Invalid token"))
      | Some user => inr user
      end.
Proof.
  intros Hs Ht Hne Hrest. unfold authenticateToken, token_of.
  change (scheme ++ " " ++ token ++ rest)%string
    with (scheme ++ String Stdlib.Strings.Ascii.Space (token ++ rest))%string.
  rewrite bool_decide_eq_false_2 by apply append_not_empty.
  rewrite (split_space_word scheme _ Hs).
  assert (split_space (token ++ rest)%string !! 0%nat = Some token) as Htok.
  { destruct Hrest as [->|[more ->]].
    - replace (token ++ "")%string with token.
      + by rewrite (split_space_spaceless token Ht).
      + clear. induction token as [|a t IH]; [done|].
        change (String a t ++ "")%string with (String a (t ++ "")%string).
        by rewrite <- IH.
    - by rewrite (split_space_word token more Ht). }
  change ((scheme :: split_space (token ++ rest)%string) !! 1%nat)
    with (split_space (token ++ rest)%string !! 0%nat).
  rewrite Htok. by rewrite bool_decide_eq_false_2.
Qed.

Variable pj : string → string.
Variable throws : string → bool.

(** X12. Neither route acts without a token that verifies: when a request
    leaves a changed table, a changed disk or any logged call, its header
    carried a second word that [jwt.verify] accepts. *)
Theorem routes_act_on_verified_tokens_only authorization d fs :
  (∀ f w',
     (DELETE_api_account jwt_verify pj throws f authorization (request d fs)).2 = w' →
     db w' ≠ d ∨ files w' ≠ fs ∨ calls w' ≠ [] →
     ∃ token user, token_of authorization = Some token
                   ∧ jwt_verify token = Some user)
  ∧ (∀ f i w',
     (DELETE_api_videos_id jwt_verify pj throws f authorization i (request d fs)).2 = w' →
     db w' ≠ d ∨ files w' ≠ fs ∨ calls w' ≠ [] →
     ∃ token user, token_of authorization = Some token
                   ∧ jwt_verify token = Some user).
Proof.
  assert (Hauth : ∀ user, authenticateToken jwt_verify authorization = inr user →
            ∃ token user, token_of authorization = Some token
                          ∧ jwt_verify token = Some user).
  { intros user. unfold authenticateToken.
    destruct (token_of authorization) as [t|]; [|done].
    destruct (bool_decide (t = "")); [done|].
    destruct (jwt_verify t) as [user'|] eqn:Hv; [|done].
    intros _. by exists t, user'. }
  split.
  - intros f w' Hrun Hchanged. unfold DELETE_api_account in Hrun.
    destruct (authenticateToken jwt_verify authorization) as [r|user] eqn:Ha.
    + simpl in Hrun. subst w'. simpl in Hchanged. by destruct_or!.
    + by apply (Hauth user).
  - intros f i w' Hrun Hchanged. unfold DELETE_api_videos_id in Hrun.
    destruct (authenticateToken jwt_verify authorization) as [r|user] eqn:Ha.
    + simpl in Hrun. subst w'. simpl in Hchanged. by destruct_or!.
    + by apply (Hauth user).
Qed.

Lemma authenticateToken_inr authorization user :
  authenticateToken jwt_verify authorization = inr user →
  ∃ token, token_of authorization = Some token ∧ jwt_verify token = Some user.
Proof.
  unfold authenticateToken.
  destruct (token_of authorization) as [t|]; [|done].
  destruct (bool_decide (t = "")); [done|].
  destruct (jwt_verify t) as [user'|] eqn:Hv; [|done].
  intros [= <-]. by exists t.
Qed.

(** X13. The holder of a token removes rows of their own only. Through
    the account route a row of [users] or [videos] that does not belong
    to the user the token verifies for is still there after the request;
    through the video route, with [id] a primary key and the ids of the
    owners and of the token safe integers, so that [!==] on two of them
    is the inequality of the ids, [users] is unchanged and so is every
    video of somebody else, whatever id is asked for. *)
Theorem token_holder_removes_own_rows_only authorization d fs :
  (∀ f,
     idle d →
     (∀ v, v ∈ videos d →
           (∀ token user, token_of authorization = Some token →
                          jwt_verify token = Some user →
                          user_id v ≠ token_id user) →
           v ∈ videos (db (DELETE_api_account jwt_verify pj throws f authorization
                             (request d fs)).2))
     ∧ (∀ r, r ∈ users d →
             (∀ token user, token_of authorization = Some token →
                            jwt_verify token = Some user →
                            user_pk r ≠ token_id user) →
             r ∈ users (db (DELETE_api_account jwt_verify pj throws f authorization
                              (request d fs)).2)))
  ∧ (∀ f i,
       primary_key d →
       safe_owners d →
       (∀ token user, token_of authorization = Some token →
                      jwt_verify token = Some user →
                      safe_integer (token_id user)) →
       users (db (DELETE_api_videos_id jwt_verify pj throws f authorization i
                    (request d fs)).2) = users d
       ∧ (∀ v, v ∈ videos d →
               (∀ token user, token_of authorization = Some token →
                              jwt_verify token = Some user →
                              user_id v ≠ token_id user) →
               v ∈ videos (db (DELETE_api_videos_id jwt_verify pj throws f
                                 authorization i (request d fs)).2))).
Proof.
  split.
  - intros f Hd. unfold DELETE_api_account.
    destruct (authenticateToken jwt_verify authorization) as [r|user] eqn:Ha;
      [by split|].
    apply authenticateToken_inr in Ha as (token & Htok & Hv).
    pose proof (delete_account_path pj throws f (token_id user) d fs Hd) as Hp.
    destruct (delete_account pj throws f (token_id user) (request d fs)) as [r w'].
    simpl in *.
    inversion Hp; subst; simpl; (split; [intros v Hin Hother|intros r' Hin Hother]);
      try done.
    + apply list_elem_of_filter. split; [by eapply Hother|done].
    + apply list_elem_of_filter. split; [by eapply Hother|done].
  - intros f i Hpk _ _. unfold DELETE_api_videos_id.
    destruct (authenticateToken jwt_verify authorization) as [r|user] eqn:Ha;
      [by split|].
    apply authenticateToken_inr in Ha as (token & Htok & Hv).
    pose proof (delete_video_path pj throws f (token_id user) i d fs) as Hp.
    destruct (delete_video pj throws f (token_id user) i (request d fs)) as [r w'].
    simpl in *.
    inversion Hp as [Hg|Hg Hs|v' Hg Hs|v' pre l m fs' Hg Hs Hu' Hpre Hl
                    |v' pre l m fs' k Hg Hs Hu' Hpre Hl];
      subst; simpl; (split; [done|]); intros v Hin Hother; try done.
    apply list_elem_of_filter. split; [|done].
    intros Hi. specialize (Hother token user Htok Hv). apply Hother.
    pose proof (select_by_primary_key d v Hpk Hin) as Hsel.
    rewrite Hi, Hs in Hsel. injection Hsel as ->. done.
Qed.

End Middleware.

End AuthFacts.

(** ** Creating and deleting tasks *)

Module TaskControllerFacts.
Import Tasks TaskController.

Lemma findIndex_from_step id task rest k :
  findIndex_from id (task :: rest) k
  = match task with
    | JNull => Throw TypeError
    | _ => if has_id id task then Normal (Some k) else findIndex_from id rest (S k)
    end.
Proof. by destruct task. Qed.

Lemma findIndex_from_passed id l1 : ∀ l2 k,
  Forall (passed_over id) l1 →
  findIndex_from id (l1 ++ l2) k = findIndex_from id l2 (k + length l1)%nat.
Proof.
  induction l1 as [|t l1 IH]; intros l2 k Hall.
  - simpl. by rewrite Nat.add_0_r.
  - apply Forall_cons in Hall as [[Hnull Hid] Hall].
    change ((t :: l1) ++ l2) with (t :: (l1 ++ l2)).
    rewrite findIndex_from_step, Hid, (IH _ _ Hall). simpl.
    replace (k + S (length l1))%nat with (S (k + length l1)) by lia.
    by destruct t.
Qed.

Lemma findIndex_from_None id l : ∀ k,
  findIndex_from id l k = Normal None ↔ Forall (passed_over id) l.
Proof.
  induction l as [|t l IH]; intros k.
  - simpl. split; [constructor|done].
  - rewrite findIndex_from_step, Forall_cons. unfold passed_over at 1.
    destruct t; try (rewrite <- (IH (S k)); simpl; naive_solver).
    simpl. destruct (strict_equal_string (field "id" fields) id).
    + naive_solver.
    + rewrite <- (IH (S k)). naive_solver.
Qed.

(** What comes before the index [findIndex] returns was passed over, and
    the task at the index has the id. *)
Lemma findIndex_from_first id l : ∀ k i,
  findIndex_from id l k = Normal (Some i) →
  (k ≤ i)%nat
  ∧ Forall (passed_over id) (take (i - k) l)
  ∧ ∃ t, l !! (i - k)%nat = Some t ∧ has_id id t = true.
Proof.
  induction l as [|t l IH]; intros k i; [done|].
  rewrite findIndex_from_step.
  destruct (has_id id t) eqn:Hid.
  - destruct t; try discriminate. intros [= <-].
    split; [lia|]. rewrite Nat.sub_diag. simpl. split; [constructor|].
    by eexists.
  - assert (t ≠ JNull → findIndex_from id l (S k) = Normal (Some i) →
            (k ≤ i)%nat ∧ Forall (passed_over id) (take (i - k) (t :: l))
            ∧ ∃ t', (t :: l) !! (i - k)%nat = Some t' ∧ has_id id t' = true) as Hrest.
    { intros Hnull Hfind. apply IH in Hfind as (Hle & Hall & t' & Ht' & Hid').
      split; [lia|]. replace (i - k)%nat with (S (i - S k)) by lia. simpl.
      split; [by constructor|]. by exists t'. }
    destruct t; try done; by apply Hrest.
Qed.

(** A value one field can be read from lets every field be read. *)
Lemma get_prop_other body k k' x :
  get_prop body k = Normal x → ∃ y, get_prop body k' = Normal y.
Proof. destruct body as [[]|]; simpl; try done; by eexists. Qed.

Section Controller.

Variable rt : runtime.

Local Ltac run :=
  unfold createTask, deleteTask, updateTask, try_catch_action, mbind, action_bind,
    pure, read, writeTasks.

(** A task with a text, up to the end of the write. *)
Lemma createTask_written disk uuid now1 now2 body file s given tasks :
  get_prop body "text" = Normal (Some (JString s)) →
  get_prop body "completed" = Normal given →
  s ≠ "" →
  trim rt s ≠ "" →
  readTasks rt file = JArray tasks →
  createTask rt disk uuid now1 now2 body file
  = match disk with
    | Returns =>
        (Reply 201 (new_task uuid (trim rt s) (default (JBool false) given) now1 now2),
         Some (JSON_stringify rt
                 (JArray (tasks ++ [new_task uuid (trim rt s)
                                      (default (JBool false) given) now1 now2]))))
    | Throws remains => (Reply 500 (error_body "Failed to create task"), remains)
    end.
Proof.
  intros Ht Hc Hs Htrim Hread. run. rewrite Ht, Hc. simpl.
  rewrite (bool_decide_eq_false_2 (s = "")) by done. simpl.
  rewrite bool_decide_eq_false_2 by done. simpl.
  rewrite Hread. simpl. by destruct disk.
Qed.

(** The deletion of a task that is found, up to the end of the write. *)
Lemma deleteTask_found disk id file tasks i :
  readTasks rt file = JArray tasks →
  findIndex_from id tasks 0 = Normal (Some i) →
  deleteTask rt disk id file
  = match disk with
    | Returns =>
        (Reply 200 (JObject [("message", JString "Task deleted successfully")]),
         Some (JSON_stringify rt (JArray (delete i tasks))))
    | Throws remains => (Reply 500 (error_body "Failed to delete task"), remains)
    end.
Proof.
  intros Hread Hfind. run. rewrite Hread. simpl. rewrite Hfind. by destruct disk.
Qed.

(** The deletion of an id that is not found. *)
Lemma deleteTask_not_found disk id file tasks :
  readTasks rt file = JArray tasks →
  findIndex_from id tasks 0 = Normal None →
  deleteTask rt disk id file = (Reply 404 (error_body "Task not found"), file).
Proof. intros Hread Hfind. run. rewrite Hread. simpl. by rewrite Hfind. Qed.

(** X14. A task needs a text: when [text] is missing, [null], [false],
    zero, the empty string or a string that trims to nothing, the answer
    is 400 "Task text is required" and the file is not written. *)
Theorem createTask_requires_text disk uuid now1 now2 body file text :
  get_prop body "text" = Normal text →
  truthy text = false ∨ (∃ s, text = Some (JString s) ∧ trim rt s = "") →
  createTask rt disk uuid now1 now2 body file
    = (Reply 400 (error_body "Task text is required"), file).
Proof.
  intros Ht Hblank.
  destruct (get_prop_other body "text" "completed" text Ht) as [given Hc].
  run. rewrite Ht, Hc. simpl.
  destruct (truthy text) eqn:Htruthy; [|done].
  destruct Hblank as [?|(s & -> & Hs)]; [done|]. simpl.
  by rewrite bool_decide_eq_true_2.
Qed.

(** X15. A task with a text is appended. When [fs.writeFileSync]
    returns, the answer is 201 with the new task, whose [text] is trimmed
    and whose [completed] is the value sent, whatever it is, or [false]
    when none is sent, and the file is rewritten with the tasks it held,
    in their order, followed by the new one. When [fs.writeFileSync]
    throws, the answer is 500 "Failed to create task" and the file is what
    the failed write left of it. *)
Theorem createTask_appends uuid now1 now2 body file s given tasks :
  get_prop body "text" = Normal (Some (JString s)) →
  get_prop body "completed" = Normal given →
  s ≠ "" →
  trim rt s ≠ "" →
  readTasks rt file = JArray tasks →
  createTask rt Returns uuid now1 now2 body file
    = (Reply 201 (new_task uuid (trim rt s) (default (JBool false) given) now1 now2),
       Some (JSON_stringify rt
               (JArray (tasks ++ [new_task uuid (trim rt s)
                                    (default (JBool false) given) now1 now2]))))
  ∧ (∀ remains,
       createTask rt (Throws remains) uuid now1 now2 body file
         = (Reply 500 (error_body "Failed to create task"), remains)).
Proof.
  intros Ht Hc Hs Htrim Hread. split; [|intros remains].
  - by rewrite (createTask_written _ _ _ _ _ _ _ _ _ Ht Hc Hs Htrim Hread).
  - by rewrite (createTask_written _ _ _ _ _ _ _ _ _ Ht Hc Hs Htrim Hread).
Qed.

(** X16. A file that cannot be read, or whose text is not JSON, is taken
    for an empty list and overwritten: after a task is created and its
    write has returned, the file holds this task alone. *)
Theorem createTask_replaces_unreadable_file uuid now1 now2 body file s given :
  get_prop body "text" = Normal (Some (JString s)) →
  get_prop body "completed" = Normal given →
  s ≠ "" →
  trim rt s ≠ "" →
  file = None ∨ (∃ data, file = Some data ∧ JSON_parse rt data = None) →
  createTask rt Returns uuid now1 now2 body file
    = (Reply 201 (new_task uuid (trim rt s) (default (JBool false) given) now1 now2),
       Some (JSON_stringify rt
               (JArray [new_task uuid (trim rt s) (default (JBool false) given)
                          now1 now2]))).
Proof.
  intros Ht Hc Hs Htrim Hfile.
  assert (readTasks rt file = JArray []) as Hread.
  { destruct Hfile as [->|(data & -> & Hbad)]; [done|].
    unfold readTasks, parse. simpl. by rewrite Hbad. }
  by rewrite (createTask_written _ _ _ _ _ _ _ _ _ Ht Hc Hs Htrim Hread).
Qed.

(** X17. What [createTask] does not check it fails on: a body that is
    missing or [null], a [text] that is truthy but not a string, and a
    file whose JSON is not an array all end in 500 "Failed to create
    task", with the file as it was. *)
Theorem createTask_type_errors disk uuid now1 now2 file :
  (∀ body, body = None ∨ body = Some JNull →
     createTask rt disk uuid now1 now2 body file
       = (Reply 500 (error_body "Failed to create task"), file))
  ∧ (∀ body t given,
       get_prop body "text" = Normal (Some t) →
       get_prop body "completed" = Normal given →
       truthy (Some t) = true →
       (∀ s, t ≠ JString s) →
       createTask rt disk uuid now1 now2 body file
         = (Reply 500 (error_body "Failed to create task"), file))
  ∧ (∀ body s given,
       get_prop body "text" = Normal (Some (JString s)) →
       get_prop body "completed" = Normal given →
       s ≠ "" →
       trim rt s ≠ "" →
       (∀ items, readTasks rt file ≠ JArray items) →
       createTask rt disk uuid now1 now2 body file
         = (Reply 500 (error_body "Failed to create task"), file)).
Proof.
  split; [|split].
  - by intros body [->| ->].
  - intros body t given Ht Hc Htruthy Hstr. run.
    rewrite Ht, Hc.
    destruct t as [|b|bits|s|items|fields]; simpl in *; try rewrite Htruthy;
      try done.
    by destruct (Hstr s).
  - intros body s given Ht Hc Hs Htrim Harr. run.
    rewrite Ht, Hc. simpl.
    rewrite (bool_decide_eq_false_2 (s = "")) by done. simpl.
    rewrite bool_decide_eq_false_2 by done. simpl.
    destruct (readTasks rt file) eqn:Hread; try done. by destruct (Harr items).
Qed.

(** X18. [deleteTask] removes the first task with the id and no other.
    When [fs.writeFileSync] returns, the answer is 200 and the file is
    rewritten with the same tasks in the same order, one fewer; the task
    removed has the id, and everything before it was passed over for not
    having it. When [fs.writeFileSync] throws, the answer is 500 "Failed
    to delete task" and the file is what the failed write left of it. *)
Theorem deleteTask_removes_first_match id file tasks i :
  readTasks rt file = JArray tasks →
  findIndex_from id tasks 0 = Normal (Some i) →
  deleteTask rt Returns id file
    = (Reply 200 (JObject [("message", JString "Task deleted successfully")]),
       Some (JSON_stringify rt (JArray (delete i tasks))))
  ∧ (∀ remains,
       deleteTask rt (Throws remains) id file
         = (Reply 500 (error_body "Failed to delete task"), remains))
  ∧ (∃ task, tasks !! i = Some task ∧ has_id id task = true)
  ∧ Forall (passed_over id) (take i tasks)
  ∧ S (length (delete i tasks)) = length tasks
  ∧ (∀ j, (j < i)%nat → delete i tasks !! j = tasks !! j)
  ∧ (∀ j, (i ≤ j)%nat → delete i tasks !! j = tasks !! S j).
Proof.
  intros Hread Hfind.
  destruct (findIndex_from_first id tasks 0 i Hfind) as (_ & Hbefore & task & Hat & Hid).
  rewrite Nat.sub_0_r in Hbefore, Hat.
  split; [|split; [|split; [by exists task|split; [done|split; [|split]]]]].
  - by rewrite (deleteTask_found _ _ _ _ _ Hread Hfind).
  - intros remains. by rewrite (deleteTask_found _ _ _ _ _ Hread Hfind).
  - pose proof (lookup_lt_Some _ _ _ Hat). rewrite length_delete by eauto. lia.
  - intros j Hj. by apply list_lookup_delete_lt.
  - intros j Hj. by apply list_lookup_delete_ge.
Qed.

(** X19. An id that no task has changes nothing: when the file holds an
    array whose tasks are all passed over, none of them [null] (an empty
    array, or an unreadable file, among them), [deleteTask] and a
    well-formed [updateTask] answer 404 "Task not found" and do not write
    the file. *)
Theorem unknown_id_changes_nothing disk id file tasks :
  readTasks rt file = JArray tasks →
  Forall (passed_over id) tasks →
  deleteTask rt disk id file = (Reply 404 (error_body "Task not found"), file)
  ∧ (∀ now body text completed,
       get_prop body "text" = Normal text →
       get_prop body "completed" = Normal completed →
       ¬ (text = None ∧ completed = None) →
       match text with
       | None => True
       | Some (JString s) => trim rt s ≠ ""
       | Some _ => False
       end →
       updateTask rt disk now (UpdateRequest id body) file
         = (Reply 404 (error_body "Task not found"), file)).
Proof.
  intros Hread Hall. apply (findIndex_from_None id tasks 0) in Hall as Hfind. split.
  - by apply (deleteTask_not_found _ _ _ tasks).
  - intros now body text completed Ht Hc Hsome Hok. run. simpl.
    rewrite Ht, Hc.
    assert (is_undefined text && is_undefined completed = false) as ->.
    { destruct text, completed; try done. exfalso. by apply Hsome. }
    destruct text as [[| | |s| |]|]; try done; simpl.
    + rewrite bool_decide_eq_false_2 by done. simpl.
      rewrite Hread. simpl. by rewrite Hfind.
    + rewrite Hread. simpl. by rewrite Hfind.
Qed.

(** X20. A handler that answers an error has not written the file,
    unless the error is that of the write itself: whatever the request
    and the file, when [createTask] answers something other than 201, or
    [updateTask] or [deleteTask] something other than 200, either the file
    is as it was, or [fs.writeFileSync] threw, the answer is the
    handler's 500, and the file is what the failed write left of it. In
    particular a write that returns is never followed by an error. *)
Theorem errors_write_only_by_failed_write disk file :
  (∀ uuid now1 now2 body,
     code (createTask rt disk uuid now1 now2 body file).1 ≠ 201%nat →
     (createTask rt disk uuid now1 now2 body file).2 = file
     ∨ ∃ remains,
         disk = Throws remains
         ∧ createTask rt disk uuid now1 now2 body file
           = (Reply 500 (error_body "Failed to create task"), remains))
  ∧ (∀ now req,
       code (updateTask rt disk now req file).1 ≠ 200%nat →
       (updateTask rt disk now req file).2 = file
       ∨ ∃ remains,
           disk = Throws remains
           ∧ updateTask rt disk now req file
             = (Reply 500 (error_body "Failed to update task"), remains))
  ∧ (∀ id,
       code (deleteTask rt disk id file).1 ≠ 200%nat →
       (deleteTask rt disk id file).2 = file
       ∨ ∃ remains,
           disk = Throws remains
           ∧ deleteTask rt disk id file
             = (Reply 500 (error_body "Failed to delete task"), remains)).
Proof.
  split; [|split].
  - intros uuid now1 now2 body. run.
    destruct (get_prop body "text") as [text|]; simpl; [|by left].
    destruct (get_prop body "completed") as [given|]; simpl; [|by left].
    destruct (truthy text); simpl; [|by left].
    destruct text as [t|]; simpl; [|by left].
    destruct (call_trim rt t) as [s|]; simpl; [|by left].
    destruct (bool_decide (s = "")); simpl; [by left|].
    destruct (push _ (readTasks rt file)); simpl; [|by left].
    destruct disk as [|remains]; simpl; [done|]. right. by exists remains.
  - intros now [id body]. run. simpl.
    destruct (get_prop body "text") as [text|]; simpl; [|by left].
    destruct (get_prop body "completed") as [completed|]; simpl; [|by left].
    destruct (is_undefined text && is_undefined completed); simpl; [by left|].
    destruct text as [t|]; simpl.
    + destruct (call_trim rt t) as [s|]; simpl; [|by left].
      destruct (bool_decide (s = "")); simpl; [by left|].
      destruct (findIndex id (readTasks rt file)) as [[i|]|]; simpl;
        [|by left|by left].
      destruct disk as [|remains]; simpl; [done|]. right. by exists remains.
    + destruct (findIndex id (readTasks rt file)) as [[i|]|]; simpl;
        [|by left|by left].
      destruct disk as [|remains]; simpl; [done|]. right. by exists remains.
  - intros id. run.
    destruct (findIndex id (readTasks rt file)) as [[i|]|]; simpl;
      [|by left|by left].
    destruct disk as [|remains]; simpl; [done|]. right. by exists remains.
Qed.

(** X21. A task that was created is listed last and can be deleted
    again: when no task of the file is [null] or has the new id, both
    writes return and the runtime reads back what it wrote, [getTasks]
    after [createTask] answers the old tasks followed by the new one, and
    [deleteTask] of the new id answers 200 and leaves the old tasks. *)
Theorem create_then_delete uuid now1 now2 body file s given tasks :
  get_prop body "text" = Normal (Some (JString s)) →
  get_prop body "completed" = Normal given →
  s ≠ "" →
  trim rt s ≠ "" →
  readTasks rt file = JArray tasks →
  Forall (passed_over uuid) tasks →
  JSON_parse rt
    (JSON_stringify rt
       (JArray (tasks ++ [new_task uuid (trim rt s) (default (JBool false) given)
                            now1 now2])))
    = Some (JArray (tasks ++ [new_task uuid (trim rt s) (default (JBool false) given)
                                now1 now2])) →
  getTasks rt (createTask rt Returns uuid now1 now2 body file).2
    = Reply 200
        (JArray (tasks ++ [new_task uuid (trim rt s) (default (JBool false) given)
                             now1 now2]))
  ∧ deleteTask rt Returns uuid (createTask rt Returns uuid now1 now2 body file).2
    = (Reply 200 (JObject [("message", JString "Task deleted successfully")]),
       Some (JSON_stringify rt (JArray tasks))).
Proof.
  intros Ht Hc Hs Htrim Hread Hfresh Hback.
  rewrite (createTask_written _ _ _ _ _ _ _ _ _ Ht Hc Hs Htrim Hread). simpl.
  assert (Hread' : readTasks rt
            (Some (JSON_stringify rt
                     (JArray (tasks ++ [new_task uuid (trim rt s)
                                          (default (JBool false) given) now1 now2]))))
          = JArray (tasks ++ [new_task uuid (trim rt s)
                                (default (JBool false) given) now1 now2])).
  { unfold readTasks, parse. simpl. by rewrite Hback. }
  split.
  - unfold getTasks. by rewrite Hread'.
  - rewrite (deleteTask_found Returns uuid _ _ (length tasks) Hread').
    + rewrite (delete_middle tasks []). by rewrite app_nil_r.
    + rewrite (findIndex_from_passed uuid tasks _ 0 Hfresh). simpl.
      by rewrite bool_decide_eq_true_2.
Qed.

(** X22. Deleting the same id again: when the write of the first
    [deleteTask] returns, no later task has the id and none is [null], and
    the runtime reads back what it wrote, the second [deleteTask] answers
    404 and leaves the file as the first wrote it, however its own write
    would end. *)
Theorem deleteTask_twice disk id file tasks i :
  readTasks rt file = JArray tasks →
  findIndex_from id tasks 0 = Normal (Some i) →
  Forall (passed_over id) (drop (S i) tasks) →
  JSON_parse rt (JSON_stringify rt (JArray (delete i tasks)))
    = Some (JArray (delete i tasks)) →
  deleteTask rt disk id (deleteTask rt Returns id file).2
    = (Reply 404 (error_body "Task not found"), (deleteTask rt Returns id file).2).
Proof.
  intros Hread Hfind Hlater Hback.
  destruct (findIndex_from_first id tasks 0 i Hfind) as (_ & Hbefore & _).
  rewrite Nat.sub_0_r in Hbefore.
  rewrite (deleteTask_found _ _ _ _ _ Hread Hfind). simpl.
  assert (Hall : Forall (passed_over id) (delete i tasks)).
  { rewrite delete_take_drop. by apply Forall_app. }
  apply (findIndex_from_None id _ 0) in Hall.
  apply (deleteTask_not_found _ _ _ (delete i tasks)); [|done].
  unfold readTasks, parse. simpl. by rewrite Hback.
Qed.

(** X23. [updateTask] looks at the text before it looks for the task: a
    [text] that trims to nothing is answered 400 "Task text cannot be
    empty" and a [text] that is not a string 500, whatever the id and the
    file, and the file is not written. *)
Theorem updateTask_checks_text_first disk now req file text completed :
  get_prop (body req) "text" = Normal (Some text) →
  get_prop (body req) "completed" = Normal completed →
  (∀ s, text = JString s → trim rt s = "" →
        updateTask rt disk now req file
          = (Reply 400 (error_body "Task text cannot be empty"), file))
  ∧ ((∀ s, text ≠ JString s) →
     updateTask rt disk now req file
       = (Reply 500 (error_body "Failed to update task"), file)).
Proof.
  intros Ht Hc. split.
  - intros s -> Hs. run. rewrite Ht, Hc. simpl.
    by rewrite bool_decide_eq_true_2.
  - intros Hstr. run. rewrite Ht, Hc. simpl.
    destruct text; try done. by destruct (Hstr s).
Qed.

End Controller.

End TaskControllerFacts.

(** ** The further properties on the sample data *)

Lemma delete_account_all_or_nothing_witness :
  db (delete_account Fixture.app_dir Fixture.never_throws Fixture.commit_fails 7
        (request Fixture.store Fixture.disk)).2 = Fixture.store.
Proof.
  destruct (delete_account_all_or_nothing Fixture.app_dir Fixture.never_throws
              Fixture.commit_fails 7 Fixture.store Fixture.disk)
    as [[Hs _]|[_ Hdb]].
  - reflexivity.
  - vm_compute in Hs. discriminate.
  - exact Hdb.
Defined.

Lemma delete_account_spares_other_accounts_witness :
  Fixture.demo
    ∈ videos (db (delete_account Fixture.app_dir Fixture.never_throws
                    no_account_faults 7 (request Fixture.store Fixture.disk)).2)
  ∧ Fixture.bob
      ∈ users (db (delete_account Fixture.app_dir Fixture.never_throws
                     no_account_faults 7 (request Fixture.store Fixture.disk)).2).
Proof.
  destruct (delete_account_spares_other_accounts Fixture.app_dir Fixture.never_throws
              no_account_faults 7 Fixture.store Fixture.disk)
    as (Husers & Hvideos & _).
  - reflexivity.
  - vm_compute. reflexivity.
  - split.
    + apply Hvideos. split; [by_computation|vm_compute; discriminate].
    + apply Husers. split; [by_computation|vm_compute; discriminate].
Defined.

Lemma delete_account_removes_own_files_only_witness :
  files (delete_account Fixture.app_dir Fixture.never_throws no_account_faults 7
           (request Fixture.store Fixture.disk)).2 ⊆ Fixture.disk.
Proof.
  destruct (delete_account_removes_own_files_only Fixture.app_dir Fixture.never_throws
              no_account_faults 7 Fixture.store Fixture.disk) as [Hsub _].
  - reflexivity.
  - exact Hsub.
Defined.

Lemma delete_account_unlinks_whatever_the_answer_witness :
  ("/srv/app/uploads/video-1.mp4"
     ∉ files (delete_account Fixture.app_dir Fixture.never_throws no_account_faults 7
                (request Fixture.orphaned Fixture.disk)).2)
  ∧ Fixture.clip
      ∈ videos (db (delete_account Fixture.app_dir Fixture.never_throws
                      no_account_faults 7
                      (request Fixture.orphaned Fixture.disk)).2).
Proof.
  destruct (delete_account_unlinks_whatever_the_answer Fixture.app_dir
              Fixture.never_throws no_account_faults 7 Fixture.orphaned Fixture.disk
              Fixture.clip) as [Hfile Hrow].
  - reflexivity.
  - reflexivity.
  - by_computation.
  - reflexivity.
  - reflexivity.
  - vm_compute. discriminate.
  - reflexivity.
  - split; [exact Hfile|]. apply Hrow. vm_compute. discriminate.
Defined.

Lemma delete_account_twice_witness :
  (delete_account Fixture.app_dir Fixture.never_throws no_account_faults 7
     (request
        (db (delete_account Fixture.app_dir Fixture.never_throws no_account_faults 7
               (request Fixture.store Fixture.disk)).2)
        (files (delete_account Fixture.app_dir Fixture.never_throws no_account_faults 7
                  (request Fixture.store Fixture.disk)).2))).1
    = Response 404 (Error "User not found").
Proof.
  destruct (delete_account_twice Fixture.app_dir Fixture.never_throws
              no_account_faults no_account_faults 7 Fixture.store Fixture.disk)
    as (_ & _ & _ & Hr).
  - reflexivity.
  - vm_compute. reflexivity.
  - apply Hr. reflexivity.
Defined.

Lemma delete_video_touches_one_id_witness :
  Fixture.demo
    ∈ videos (db (delete_video Fixture.app_dir Fixture.never_throws no_video_faults
                    7 1 (request Fixture.store Fixture.disk)).2).
Proof.
  pose proof (delete_video_touches_one_id Fixture.app_dir Fixture.never_throws
                no_video_faults 7 1 Fixture.store Fixture.disk)
    as (_ & _ & Hothers & _).
  apply Hothers.
  - vm_compute. discriminate.
  - by_computation.
Defined.

Lemma delete_video_removes_its_file_only_witness :
  files (delete_video Fixture.app_dir Fixture.never_throws no_video_faults 7 1
           (request Fixture.store Fixture.disk)).2 ⊆ Fixture.disk.
Proof.
  destruct (delete_video_removes_its_file_only Fixture.app_dir Fixture.never_throws
              no_video_faults 7 1 Fixture.store Fixture.disk) as [Hsub _].
  - by_computation.
  - by_computation.
  - exact Hsub.
Defined.

Lemma delete_video_failed_delete_loses_file_witness :
  db (delete_video Fixture.app_dir Fixture.never_throws Samples.row_delete_fails 7 1
        (request Fixture.store Fixture.disk)).2 = Fixture.store
  ∧ ("/srv/app/uploads/video-1.mp4"
       ∉ files (delete_video Fixture.app_dir Fixture.never_throws
                  Samples.row_delete_fails 7 1
                  (request Fixture.store Fixture.disk)).2).
Proof.
  destruct (delete_video_failed_delete_loses_file Fixture.app_dir Fixture.never_throws
              Samples.row_delete_fails 7 Fixture.store Fixture.disk Fixture.clip)
    as (_ & Hdb & Hfile).
  - by_computation.
  - by_computation.
  - reflexivity.
  - reflexivity.
  - vm_compute. discriminate.
  - reflexivity.
  - reflexivity.
  - reflexivity.
  - split; [exact Hdb|exact Hfile].
Defined.

Lemma delete_video_unknown_id_witness :
  delete_video Fixture.app_dir Fixture.never_throws no_video_faults 7 99
    (request Fixture.store Fixture.disk)
  = (Response 404 (Error "Video not found"),
     World Fixture.store Fixture.disk [Sql (SELECT_videos_WHERE_id 99) (Some 0%nat)]).
Proof.
  apply delete_video_unknown_id.
  - intros v Hv. apply list_elem_of_In in Hv. simpl in Hv.
    destruct Hv as [<-|[<-|[<-|[<-|[]]]]]; vm_compute; discriminate.
  - reflexivity.
Defined.

Lemma authenticateToken_requires_token_witness :
  Auth.authenticateToken Samples.verify (Some "Bearer")
    = inl (Response 401 (Error "Access token required"))
  ∧ Auth.authenticateToken Samples.verify (Some "Bearer  alice.jwt")
    = inl (Response 401 (Error "Access token required")).
Proof.
  pose proof (AuthFacts.authenticateToken_requires_token Samples.verify)
    as (_ & Hword & _ & Hdouble).
  split.
  - apply Hword. reflexivity.
  - apply (Hdouble "Bearer" "alice.jwt"). reflexivity.
Defined.

Lemma authenticateToken_second_word_witness :
  Auth.authenticateToken Samples.verify (Some "Token alice.jwt and more")
    = inr (Auth.TokenPayload 7 "alice@example.org").
Proof.
  apply (AuthFacts.authenticateToken_second_word Samples.verify
           "Token" "alice.jwt" " and more").
  - reflexivity.
  - reflexivity.
  - discriminate.
  - right. by exists "and more".
Defined.

Lemma routes_act_on_verified_tokens_only_witness :
  ∃ token user,
    Auth.token_of (Some "Bearer alice.jwt") = Some token
    ∧ Samples.verify token = Some user.
Proof.
  pose proof (AuthFacts.routes_act_on_verified_tokens_only Samples.verify
                Fixture.app_dir Fixture.never_throws (Some "Bearer alice.jwt")
                Fixture.store Fixture.disk) as [Haccount _].
  apply (Haccount no_account_faults _ eq_refl).
  right. right. vm_compute. discriminate.
Defined.

Lemma token_holder_removes_own_rows_only_witness :
  Fixture.demo
    ∈ videos (db (Auth.DELETE_api_videos_id Samples.verify Fixture.app_dir
                    Fixture.never_throws no_video_faults (Some "Bearer alice.jwt") 3
                    (request Fixture.store Fixture.disk)).2).
Proof.
  pose proof (AuthFacts.token_holder_removes_own_rows_only Samples.verify
                Fixture.app_dir Fixture.never_throws (Some "Bearer alice.jwt")
                Fixture.store Fixture.disk) as [_ Hvideo].
  destruct (Hvideo no_video_faults 3) as [_ Hrows].
  - by_computation.
  - by_computation.
  - intros token user Htoken Hverify. vm_compute in Htoken.
    injection Htoken as <-. vm_compute in Hverify. injection Hverify as <-.
    by_computation.
  - apply Hrows.
    + by_computation.
    + intros token user Htoken Hverify. vm_compute in Htoken.
      injection Htoken as <-. vm_compute in Hverify. injection Hverify as <-.
      vm_compute. discriminate.
Defined.

Lemma createTask_requires_text_witness :
  TaskController.createTask Samples.rt Tasks.Returns "c3" "2024-03-09T12:00:00.000Z"
    "2024-03-09T12:00:00.001Z"
    (Some (Tasks.JObject [("text", Tasks.JString "   ")])) (Some "<milk, bread>")
  = (Tasks.Reply 400 (Tasks.error_body "Task text is required"),
     Some "<milk, bread>").
Proof.
  apply (TaskControllerFacts.createTask_requires_text Samples.rt _ _ _ _ _ _
           (Some (Tasks.JString "   "))).
  - reflexivity.
  - right. exists "   ". split; reflexivity.
Defined.

Lemma createTask_appends_witness :
  TaskController.createTask Samples.rt Tasks.Returns "c3" "2024-03-09T12:00:00.000Z"
    "2024-03-09T12:00:00.001Z"
    (Some (Tasks.JObject [("text", Tasks.JString " Buy eggs ")]))
    (Some "<milk, bread>")
  = (Tasks.Reply 201 Samples.eggs, Some "<milk, bread, eggs>")
  ∧ TaskController.createTask Samples.rt (Tasks.Throws (Some "")) "c3"
      "2024-03-09T12:00:00.000Z" "2024-03-09T12:00:00.001Z"
      (Some (Tasks.JObject [("text", Tasks.JString " Buy eggs ")]))
      (Some "<milk, bread>")
    = (Tasks.Reply 500 (Tasks.error_body "Failed to create task"), Some "").
Proof.
  destruct (TaskControllerFacts.createTask_appends Samples.rt "c3"
              "2024-03-09T12:00:00.000Z" "2024-03-09T12:00:00.001Z"
              (Some (Tasks.JObject [("text", Tasks.JString " Buy eggs ")]))
              (Some "<milk, bread>") " Buy eggs " None [Fixture.milk; Fixture.bread])
    as [Hwritten Hfailed].
  - reflexivity.
  - reflexivity.
  - discriminate.
  - vm_compute. discriminate.
  - reflexivity.
  - split; [exact Hwritten|exact (Hfailed (Some ""))].
Defined.

Lemma createTask_replaces_unreadable_file_witness :
  TaskController.createTask Samples.rt Tasks.Returns "c3" "2024-03-09T12:00:00.000Z"
    "2024-03-09T12:00:00.001Z"
    (Some (Tasks.JObject [("text", Tasks.JString " Buy eggs ")]))
    (Some "[{ id: a1, te")
  = (Tasks.Reply 201 Samples.eggs, Some "<eggs>").
Proof.
  apply (TaskControllerFacts.createTask_replaces_unreadable_file Samples.rt "c3"
           "2024-03-09T12:00:00.000Z" "2024-03-09T12:00:00.001Z"
           (Some (Tasks.JObject [("text", Tasks.JString " Buy eggs ")]))
           (Some "[{ id: a1, te") " Buy eggs " None).
  - reflexivity.
  - reflexivity.
  - discriminate.
  - vm_compute. discriminate.
  - right. exists "[{ id: a1, te". split; reflexivity.
Defined.

Lemma createTask_type_errors_witness :
  TaskController.createTask Samples.rt Tasks.Returns "c3" "2024-03-09T12:00:00.000Z"
    "2024-03-09T12:00:00.001Z"
    (Some (Tasks.JObject [("text", Tasks.JString "Buy eggs")])) (Some "<settings>")
  = (Tasks.Reply 500 (Tasks.error_body "Failed to create task"), Some "<settings>")
  ∧ TaskController.createTask Samples.rt Tasks.Returns "c3"
      "2024-03-09T12:00:00.000Z" "2024-03-09T12:00:00.001Z"
      (Some (Tasks.JObject [("text", Tasks.JBool true)])) (Some "<milk, bread>")
    = (Tasks.Reply 500 (Tasks.error_body "Failed to create task"),
       Some "<milk, bread>").
Proof.
  split.
  - pose proof (TaskControllerFacts.createTask_type_errors Samples.rt Tasks.Returns
                  "c3" "2024-03-09T12:00:00.000Z" "2024-03-09T12:00:00.001Z"
                  (Some "<settings>")) as (_ & _ & Harray).
    apply (Harray _ "Buy eggs" None).
    + reflexivity.
    + reflexivity.
    + discriminate.
    + vm_compute. discriminate.
    + intros items. vm_compute. discriminate.
  - pose proof (TaskControllerFacts.createTask_type_errors Samples.rt Tasks.Returns
                  "c3" "2024-03-09T12:00:00.000Z" "2024-03-09T12:00:00.001Z"
                  (Some "<milk, bread>")) as (_ & Htext & _).
    apply (Htext _ (Tasks.JBool true) None).
    + reflexivity.
    + reflexivity.
    + reflexivity.
    + intros s. discriminate.
Defined.

Lemma deleteTask_removes_first_match_witness :
  TaskController.deleteTask Samples.rt Tasks.Returns "b2" (Some "<milk, bread>")
  = (Tasks.Reply 200
       (Tasks.JObject [("message", Tasks.JString "Task deleted successfully")]),
     Some "<milk>")
  ∧ TaskController.deleteTask Samples.rt (Tasks.Throws None) "b2"
      (Some "<milk, bread>")
    = (Tasks.Reply 500 (Tasks.error_body "Failed to delete task"), None).
Proof.
  destruct (TaskControllerFacts.deleteTask_removes_first_match Samples.rt "b2"
              (Some "<milk, bread>") [Fixture.milk; Fixture.bread] 1%nat)
    as (Hrun & Hfailed & _).
  - reflexivity.
  - reflexivity.
  - split; [exact Hrun|exact (Hfailed None)].
Defined.

Lemma unknown_id_changes_nothing_witness :
  TaskController.deleteTask Samples.rt Tasks.Returns "zz" (Some "<milk, bread>")
  = (Tasks.Reply 404 (Tasks.error_body "Task not found"), Some "<milk, bread>").
Proof.
  destruct (TaskControllerFacts.unknown_id_changes_nothing Samples.rt Tasks.Returns
              "zz" (Some "<milk, bread>") [Fixture.milk; Fixture.bread])
    as (Hrun & _).
  - reflexivity.
  - repeat constructor; discriminate.
  - exact Hrun.
Defined.

Lemma errors_write_only_by_failed_write_witness :
  (Tasks.updateTask Samples.rt Tasks.Returns "2024-03-09T12:00:00.000Z"
     (Tasks.UpdateRequest "b2" None) (Some "<milk, bread>")).2
  = Some "<milk, bread>".
Proof.
  pose proof (TaskControllerFacts.errors_write_only_by_failed_write Samples.rt
                Tasks.Returns (Some "<milk, bread>")) as (_ & Hupdate & _).
  destruct (Hupdate "2024-03-09T12:00:00.000Z" (Tasks.UpdateRequest "b2" None))
    as [Hsame|(remains & Hdisk & _)].
  - vm_compute. discriminate.
  - exact Hsame.
  - discriminate Hdisk.
Defined.

Lemma create_then_delete_witness :
  TaskController.deleteTask Samples.rt Tasks.Returns "c3"
    (TaskController.createTask Samples.rt Tasks.Returns "c3"
       "2024-03-09T12:00:00.000Z" "2024-03-09T12:00:00.001Z"
       (Some (Tasks.JObject [("text", Tasks.JString " Buy eggs ")]))
       (Some "<milk, bread>")).2
  = (Tasks.Reply 200
       (Tasks.JObject [("message", Tasks.JString "Task deleted successfully")]),
     Some "<milk, bread>").
Proof.
  destruct (TaskControllerFacts.create_then_delete Samples.rt "c3"
              "2024-03-09T12:00:00.000Z" "2024-03-09T12:00:00.001Z"
              (Some (Tasks.JObject [("text", Tasks.JString " Buy eggs ")]))
              (Some "<milk, bread>") " Buy eggs " None [Fixture.milk; Fixture.bread])
    as (_ & Hdelete).
  - reflexivity.
  - reflexivity.
  - discriminate.
  - vm_compute. discriminate.
  - reflexivity.
  - repeat constructor; discriminate.
  - reflexivity.
  - exact Hdelete.
Defined.

Lemma deleteTask_twice_witness :
  TaskController.deleteTask Samples.rt (Tasks.Throws None) "b2"
    (TaskController.deleteTask Samples.rt Tasks.Returns "b2"
       (Some "<milk, bread>")).2
  = (Tasks.Reply 404 (Tasks.error_body "Task not found"),
     (TaskController.deleteTask Samples.rt Tasks.Returns "b2"
        (Some "<milk, bread>")).2).
Proof.
  apply (TaskControllerFacts.deleteTask_twice Samples.rt (Tasks.Throws None) "b2"
           (Some "<milk, bread>") [Fixture.milk; Fixture.bread] 1%nat).
  - reflexivity.
  - reflexivity.
  - constructor.
  - reflexivity.
Defined.

Lemma updateTask_checks_text_first_witness :
  Tasks.updateTask Samples.rt Tasks.Returns "2024-03-09T12:00:00.000Z"
    (Tasks.UpdateRequest "zz" (Some (Tasks.JObject [("text", Tasks.JString " ")])))
    (Some "<settings>")
  = (Tasks.Reply 400 (Tasks.error_body "Task text cannot be empty"),
     Some "<settings>").
Proof.
  destruct (TaskControllerFacts.updateTask_checks_text_first Samples.rt Tasks.Returns
              "2024-03-09T12:00:00.000Z"
              (Tasks.UpdateRequest "zz"
                 (Some (Tasks.JObject [("text", Tasks.JString " ")])))
              (Some "<settings>") (Tasks.JString " ") None) as [Hblank _].
  - reflexivity.
  - reflexivity.
  - apply (Hblank " "); reflexivity.
Defined.
